(** * Mention notifications: the [notifymentions] backend and the plugin
    delivery channel.

    A shallow embedding of
      server/services/notify/notifymentions/mentions_backend.go
      server/services/notify/plugindelivery/mention_deliver.go

    Go code that calls its collaborators (store, permissions, delivery,
    websocket adapter, logger, listeners) is written in a small state monad
    with panics.  The state is the collaborators' world together with a log
    of every call the backend makes through one of its interfaces, with
    the arguments of the call and what it returned.  Pointers are options,
    and reading a field through [nil] panics.  The registry lock is left
    out: a call works on the listeners the backend holds when it starts,
    which is what the copy made under the read lock gives it. *)

From Stdlib Require Import Ascii String.
From stdpp Require Import base strings gmap list.

Local Open Scope string_scope.
Local Open Scope list_scope.
Local Open Scope nat_scope.
Local Open Scope stdpp_scope.

(** ** Errors *)

(** Go [error] values.  [Errorf msg cause] stands for
    [fmt.Errorf("<msg>: %w", cause)]; errors made by collaborators are
    opaque to this package and are told apart only by the collaborator's
    own [IsErrNotFound]. *)
Inductive error : Type :=
| ErrMentionPermission
| ErrExternal (msg : string)
| Errorf (msg : string) (cause : error).

#[global] Instance error_eq_dec : EqDecision error.
Proof. solve_decision. Defined.

Fixpoint Error (e : error) : string :=
  match e with
  | ErrMentionPermission => "mention not permitted"
  | ErrExternal msg => msg
  | Errorf msg cause => msg +:+ ": " +:+ Error cause
  end.

(** [errors.Is]: walks the chain of wrapped causes. *)
Fixpoint errors_Is (e target : error) : bool :=
  bool_decide (e = target) ||
  match e with
  | Errorf _ cause => errors_Is cause target
  | _ => false
  end.

(** [merror.MError]: the errors appended so far, in order. *)
Definition merror : Type := list error.

Definition merror_New : merror := [].

Definition merror_Append (merr : merror) (e : error) : merror := merr ++ [e].

Definition ErrorOrNil (merr : merror) : option merror :=
  match merr with
  | [] => None
  | _ :: _ => Some merr
  end.

(** ** The data model ([model], [mm_model], [notify]) *)

Module model.

Inductive BlockType : Type :=
| TypeText
| TypeComment
| TypeImage
| TypeOther.

Inductive BoardType : Type :=
| BoardTypeOpen
| BoardTypePrivate.

Inductive Permission : Type :=
| PermissionViewTeam
| PermissionViewBoard.

Record Block : Type := mkBlock {
  Block_ID : string;
  Block_Type : BlockType;
  Block_Title : string }.

Record Board : Type := mkBoard {
  Board_ID : string;
  Board_TeamID : string;
  Board_Type : BoardType }.

Record BoardMember : Type := mkBoardMember {
  BoardID : string;
  UserID : string;
  SchemeAdmin : bool;
  SchemeEditor : bool;
  SchemeCommenter : bool;
  SchemeViewer : bool }.

End model.

Module mm_model.

Record User : Type := mkUser {
  User_Id : string;
  Username : string }.

Record Channel : Type := mkChannel {
  Channel_Id : string }.

Record Post : Type := mkPost {
  UserId : string;
  ChannelId : string;
  Message : string }.

End mm_model.

Module notify.

Inductive Action : Type :=
| Add
| Update
| Delete.

(** Pointer fields are options: [nil] is [None]. *)
Record BlockChangeEvent : Type := mkEvent {
  Action_ : Action;
  TeamID : string;
  Board : option model.Board;
  Card : option model.Block;
  BlockChanged : option model.Block;
  BlockOld : option model.Block;
  ModifiedBy : option model.BoardMember }.

End notify.

#[global] Instance BlockType_eq_dec : EqDecision model.BlockType.
Proof. solve_decision. Defined.
#[global] Instance BoardType_eq_dec : EqDecision model.BoardType.
Proof. solve_decision. Defined.
#[global] Instance Permission_eq_dec : EqDecision model.Permission.
Proof. solve_decision. Defined.
#[global] Instance Block_eq_dec : EqDecision model.Block.
Proof. solve_decision. Defined.
#[global] Instance Board_eq_dec : EqDecision model.Board.
Proof. solve_decision. Defined.
#[global] Instance BoardMember_eq_dec : EqDecision model.BoardMember.
Proof. solve_decision. Defined.
#[global] Instance User_eq_dec : EqDecision mm_model.User.
Proof. solve_decision. Defined.
#[global] Instance Action_eq_dec : EqDecision notify.Action.
Proof. solve_decision. Defined.
#[global] Instance BlockChangeEvent_eq_dec : EqDecision notify.BlockChangeEvent.
Proof. solve_decision. Defined.

(** ** The monad: state, and panics that unwind *)

Inductive panic : Type :=
| NilDereference
| PanicValue (v : string).

Inductive Res (A : Type) : Type :=
| Ret (a : A)
| Panic (p : panic).
Arguments Ret {A} a.
Arguments Panic {A} p.

Definition M (S A : Type) : Type := S -> Res A * S.

Definition ret {S A : Type} (a : A) : M S A := fun s => (Ret a, s).

Definition bind {S A B : Type} (m : M S A) (k : A -> M S B) : M S B :=
  fun s =>
    match m s with
    | (Ret a, s') => k a s'
    | (Panic p, s') => (Panic p, s')
    end.

Definition raise {S A : Type} (p : panic) : M S A := fun s => (Panic p, s).

(** Reading a field through a pointer. *)
Definition deref {S A : Type} (ptr : option A) : M S A :=
  match ptr with
  | Some a => ret a
  | None => raise NilDereference
  end.

(** [defer func() { if r := recover(); r != nil { handler } }()] around [m]. *)
Definition recover {S : Type} (m : M S unit) (handler : panic -> M S unit) : M S unit :=
  fun s =>
    match m s with
    | (Ret tt, s') => (Ret tt, s')
    | (Panic r, s') => handler r s'
    end.

Declare Scope go_scope.
Delimit Scope go_scope with go.
Notation "'let*' p := m 'in' k" := (bind m (fun p => k))
  (at level 10, p pattern, m at level 99, k at level 200) : go_scope.
Notation "m ;; k" := (bind m (fun _ => k))
  (at level 100, right associativity) : go_scope.
Local Open Scope go_scope.

(** [for _, x := range xs { body }] over a slice. *)
Fixpoint for_each {S A : Type} (xs : list A) (body : A -> M S unit) : M S unit :=
  match xs with
  | [] => ret tt
  | x :: xs' => body x ;; for_each xs' body
  end.

(** A [range] loop that updates one local variable [acc]. *)
Fixpoint for_fold {S A B : Type} (xs : list A) (acc : B) (body : B -> A -> M S B) : M S B :=
  match xs with
  | [] => ret acc
  | x :: xs' => let* acc' := body acc x in for_fold xs' acc' body
  end.

(** ** Collaborator interfaces

    A method of a collaborator acts on the collaborators' own state [W]
    (the world outside this package) and may panic. *)

Section Interfaces.
Context {W : Type}.

(** [notifymentions.Store] *)
Record Store : Type := mkStore {
  GetMemberForBoard : string -> string -> M W (option model.BoardMember * option error);
  Store_IsErrNotFound : option error -> bool;
  SaveMember : model.BoardMember -> M W (option model.BoardMember * option error) }.

(** [permissions.PermissionsService] *)
Record PermissionsService : Type := mkPermissions {
  HasPermissionToTeam : string -> string -> model.Permission -> M W bool;
  HasPermissionToBoard : string -> string -> model.Permission -> M W bool }.

(** [notifymentions.MentionDelivery] *)
Record MentionDelivery : Type := mkDelivery {
  UserByUsername : string -> M W (option mm_model.User * option error);
  Delivery_IsErrNotFound : option error -> bool;
  MentionDeliver :
    option mm_model.User -> string -> notify.BlockChangeEvent -> M W (string * option error) }.

(** [ws.Adapter] *)
Record Adapter : Type := mkAdapter {
  BroadcastMemberChange : string -> string -> option model.BoardMember -> M W unit }.

(** [MentionListener]; [listener_id] is the identity that [!=] compares. *)
Record MentionListener : Type := mkListener {
  listener_id : nat;
  OnMention : string -> notify.BlockChangeEvent -> M W unit }.

(** The plugin API used by [plugindelivery.PluginDelivery]. *)
Record PluginAPI : Type := mkPluginAPI {
  GetUserByID : string -> M W (option mm_model.User * option error);
  GetDirectChannel : string -> string -> M W (option mm_model.Channel * option error);
  CreatePost : mm_model.Post -> M W (option error) }.

End Interfaces.
Arguments Store : clear implicits.
Arguments PermissionsService : clear implicits.
Arguments MentionDelivery : clear implicits.
Arguments Adapter : clear implicits.
Arguments MentionListener : clear implicits.
Arguments PluginAPI : clear implicits.

(** ** plugindelivery/mention_deliver.go *)

Module plugindelivery.
Section PluginDelivery.
Context {W : Type}.

(** [utils.MakeCardLink] and [formatMessage] only build the text of the
    post; they are defined outside the two files embedded here. *)
Variable MakeCardLink : string -> string -> string -> string -> string.
Variable formatMessage : string -> string -> string -> string -> option model.Block -> string.

Record PluginDelivery : Type := mkPluginDelivery {
  botID : string;
  serverRoot : string;
  api : PluginAPI W }.

Definition MentionDeliver (pd : PluginDelivery) (mentionedUser : option mm_model.User)
    (extract : string) (evt : notify.BlockChangeEvent) : M W (string * option error) :=
  let* modifiedBy := deref (notify.ModifiedBy evt) in
  let* (author, err) := GetUserByID (api pd) (model.UserID modifiedBy) in
  match err with
  | Some err => ret ("", Some (Errorf "cannot find user" err))
  | None =>
    let* mentioned := deref mentionedUser in
    let* (channel, err) := GetDirectChannel (api pd) (mm_model.User_Id mentioned) (botID pd) in
    match err with
    | Some err => ret ("", Some (Errorf "cannot get direct channel" err))
    | None =>
      let* board := deref (notify.Board evt) in
      let* card := deref (notify.Card evt) in
      let link := MakeCardLink (serverRoot pd) (model.Board_TeamID board)
                    (model.Board_ID board) (model.Block_ID card) in
      let* channel := deref channel in
      let* author := deref author in
      let post := {| mm_model.UserId := botID pd;
                     mm_model.ChannelId := mm_model.Channel_Id channel;
                     mm_model.Message :=
                       formatMessage (mm_model.Username author) extract
                         (model.Block_Title card) link (notify.BlockChanged evt) |} in
      let* err := CreatePost (api pd) post in
      ret (mm_model.User_Id mentioned, err)
    end
  end.

End PluginDelivery.
End plugindelivery.

(** ** notifymentions/mentions_backend.go *)

(** Fields of a log record ([mlog.String], [mlog.Int], [mlog.Any]);
    [FBoardType] is [mlog.String] of a board type. *)
Inductive Field : Type :=
| FString (key value : string)
| FInt (key : string) (value : nat)
| FAny (key : string) (value : panic)
| FBoardType (key : string) (value : model.BoardType).

Inductive LogLevel : Type :=
| LevelDebug
| LevelError.

(** The calls the backend makes through its interfaces, each with its
    arguments and with what it returned (or the panic it raised). *)
Inductive Call : Type :=
| CUserByUsername (username : string) (r : Res (option mm_model.User * option error))
| CHasPermissionToTeam (userID teamID : string) (perm : model.Permission) (r : Res bool)
| CHasPermissionToBoard (userID boardID : string) (perm : model.Permission) (r : Res bool)
| CGetMemberForBoard (boardID userID : string)
    (r : Res (option model.BoardMember * option error))
| CSaveMember (member : model.BoardMember) (r : Res (option model.BoardMember * option error))
| CBroadcastMemberChange (teamID boardID : string) (member : option model.BoardMember)
    (r : Res unit)
| CMentionDeliver (user : option mm_model.User) (extract : string)
    (evt : notify.BlockChangeEvent) (r : Res (string * option error))
| COnMention (listener : nat) (userID : string) (evt : notify.BlockChangeEvent) (r : Res unit)
| CLog (level : LogLevel) (msg : string) (fields : list Field).

(** The state a backend method runs in: the collaborators' world and the
    log of the calls made so far, oldest first. *)
Record BState (W : Type) : Type := mkBState {
  world : W;
  calls : list Call }.
Arguments mkBState {W} world calls.
Arguments world {W} b.
Arguments calls {W} b.

Definition backendName : string := "notifyMentions".

(** Helpers of the package that live in other files: the tokenizer behind
    [extractMentions], the excerpt builder [extractText] with its [limits],
    and the order in which [range] walks a Go map, which the language
    leaves open. *)
Class Helpers : Type := mkHelpers {
  mentionTokens : string -> gset string;
  limits : Type;
  newLimits : limits;
  extractText : string -> string -> limits -> string;
  map_range : gset string -> list string }.

(** [range] visits each key of the map once, in some order. *)
Definition range_faithful (hp : Helpers) : Prop :=
  forall s : gset string, map_range s ≡ₚ elements s.

Section Backend.
Context {W : Type} {hp : Helpers}.

(** Modelled from the spec: [extractMentions], which is defined in another
    file of the package, returns the set of usernames found after [@] in
    the block's text; an absent block yields the empty set. *)
Definition extractMentions (block : option model.Block) : gset string :=
  match block with
  | None => ∅
  | Some blk => mentionTokens (model.Block_Title blk)
  end.

Record Backend : Type := mkBackend {
  store : Store W;
  permissions : PermissionsService W;
  delivery : MentionDelivery W;
  wsAdapter : Adapter W;
  listeners : list (MentionListener W) }.

(** An interface call: run on the world, and logged with its outcome. *)
Definition call {A : Type} (c : Res A -> Call) (method : M W A) : M (BState W) A :=
  fun s =>
    let (r, w) := method (world s) in
    (r, {| world := w; calls := calls s ++ [c r] |}).

Definition logger_Debug (msg : string) (fields : list Field) : M (BState W) unit :=
  fun s => (Ret tt, {| world := world s; calls := calls s ++ [CLog LevelDebug msg fields] |}).

Definition logger_Error (msg : string) (fields : list Field) : M (BState W) unit :=
  fun s => (Ret tt, {| world := world s; calls := calls s ++ [CLog LevelError msg fields] |}).

Definition Name (b : Backend) : string := backendName.

Definition AddListener (b : Backend) (l : MentionListener W) : M (BState W) Backend :=
  let b' := {| store := store b; permissions := permissions b; delivery := delivery b;
               wsAdapter := wsAdapter b; listeners := listeners b ++ [l] |} in
  logger_Debug "Mention listener added." [FInt "listener_count" (length (listeners b'))] ;;
  ret b'.

Definition RemoveListener (b : Backend) (l : MentionListener W) : M (BState W) Backend :=
  let list := filter (fun listener => listener_id listener ≠ listener_id l) (listeners b) in
  let b' := {| store := store b; permissions := permissions b; delivery := delivery b;
               wsAdapter := wsAdapter b; listeners := list |} in
  logger_Debug "Mention listener removed." [FInt "listener_count" (length (listeners b'))] ;;
  ret b'.

Definition deliverMentionNotification (b : Backend) (username extract : string)
    (evt : notify.BlockChangeEvent) : M (BState W) (string * option error) :=
  let* (mentionedUser, err) :=
    call (CUserByUsername username) (UserByUsername (delivery b) username) in
  match err with
  | Some err =>
    if Delivery_IsErrNotFound (delivery b) (Some err)
    then ret ("", None)
    else ret ("", Some (Errorf "cannot lookup mentioned user" err))
  | None =>
    match notify.ModifiedBy evt with
    | None => ret ("", Some (Errorf "invalid user cannot mention" ErrMentionPermission))
    | Some modifiedBy =>
      let deliver :=
        call (CMentionDeliver mentionedUser extract evt)
             (MentionDeliver (delivery b) mentionedUser extract evt) in
      let* board := deref (notify.Board evt) in
      if decide (model.Board_Type board = model.BoardTypeOpen) then
        if model.SchemeAdmin modifiedBy || model.SchemeEditor modifiedBy
           || model.SchemeCommenter modifiedBy then
          let* mentioned := deref mentionedUser in
          let* ok := call (CHasPermissionToTeam (mm_model.User_Id mentioned)
                             (notify.TeamID evt) model.PermissionViewTeam)
                          (HasPermissionToTeam (permissions b) (mm_model.User_Id mentioned)
                             (notify.TeamID evt) model.PermissionViewTeam) in
          if negb ok then
            ret ("", Some (Errorf (model.UserID modifiedBy +:+ " cannot mention non-team member "
                                     +:+ mm_model.User_Id mentioned +:+ " ")
                                  ErrMentionPermission))
          else
            let* (member, err) :=
              call (CGetMemberForBoard (model.Board_ID board) (mm_model.User_Id mentioned))
                   (GetMemberForBoard (store b) (model.Board_ID board)
                      (mm_model.User_Id mentioned)) in
            if bool_decide (member = None) || Store_IsErrNotFound (store b) err then
              let newBoardMember :=
                {| model.UserID := mm_model.User_Id mentioned;
                   model.BoardID := model.Board_ID board;
                   model.SchemeAdmin := false;
                   model.SchemeEditor := true;
                   model.SchemeCommenter := false;
                   model.SchemeViewer := false |} in
              let* (member, err) :=
                call (CSaveMember newBoardMember) (SaveMember (store b) newBoardMember) in
              match err with
              | Some err =>
                ret ("", Some (Errorf ("cannot add mentioned user " +:+ mm_model.User_Id mentioned
                                         +:+ " to board " +:+ model.Board_ID board) err))
              | None =>
                logger_Debug "auto-added mentioned user to board"
                  [FString "user_id" (mm_model.User_Id mentioned);
                   FString "board_id" (model.Board_ID board);
                   FBoardType "board_type" (model.Board_Type board)] ;;
                call (CBroadcastMemberChange (notify.TeamID evt) (model.Board_ID board) member)
                     (BroadcastMemberChange (wsAdapter b) (notify.TeamID evt)
                        (model.Board_ID board) member) ;;
                deliver
              end
            else
              logger_Debug "skipping auto-add mentioned user to board; already a member"
                [FString "user_id" (mm_model.User_Id mentioned);
                 FString "board_id" (model.Board_ID board);
                 FBoardType "board_type" (model.Board_Type board)] ;;
              deliver
        else if model.SchemeViewer modifiedBy then
          let* mentioned := deref mentionedUser in
          ret ("", Some (Errorf (model.UserID modifiedBy +:+ " (viewer) cannot mention user "
                                   +:+ mm_model.User_Id mentioned)
                                ErrMentionPermission))
        else
          let* mentioned := deref mentionedUser in
          let* ok := call (CHasPermissionToBoard (mm_model.User_Id mentioned)
                             (model.Board_ID board) model.PermissionViewBoard)
                          (HasPermissionToBoard (permissions b) (mm_model.User_Id mentioned)
                             (model.Board_ID board) model.PermissionViewBoard) in
          if negb ok then
            ret ("", Some (Errorf (model.UserID modifiedBy +:+ " cannot mention non-board member "
                                     +:+ mm_model.User_Id mentioned +:+ " ")
                                  ErrMentionPermission))
          else deliver
      else
        if model.SchemeViewer modifiedBy then
          let* mentioned := deref mentionedUser in
          ret ("", Some (Errorf (model.UserID modifiedBy +:+ " (viewer) cannot mention user "
                                   +:+ mm_model.User_Id mentioned)
                                ErrMentionPermission))
        else
          let* mentioned := deref mentionedUser in
          let* ok := call (CHasPermissionToBoard (mm_model.User_Id mentioned)
                             (model.Board_ID board) model.PermissionViewBoard)
                          (HasPermissionToBoard (permissions b) (mm_model.User_Id mentioned)
                             (model.Board_ID board) model.PermissionViewBoard) in
          if negb ok then
            ret ("", Some (Errorf (model.UserID modifiedBy +:+ " cannot mention non-board member "
                                     +:+ mm_model.User_Id mentioned +:+ " ")
                                  ErrMentionPermission))
          else deliver
    end
  end.

Definition safeCallListener (listener : MentionListener W) (userID : string)
    (evt : notify.BlockChangeEvent) : M (BState W) unit :=
  recover
    (call (COnMention (listener_id listener) userID evt) (OnMention listener userID evt))
    (fun r => logger_Error "panic calling @mention notification listener" [FAny "err" r]).

Definition BlockChanged (b : Backend) (evt : notify.BlockChangeEvent)
    : M (BState W) (option merror) :=
  if bool_decide (notify.Board evt = None) || bool_decide (notify.Card evt = None) then ret None
  else if bool_decide (notify.Action_ evt = notify.Delete) then ret None
  else
    let* blockChanged := deref (notify.BlockChanged evt) in
    match model.Block_Type blockChanged with
    | model.TypeText | model.TypeComment | model.TypeImage =>
      let mentions := extractMentions (notify.BlockChanged evt) in
      if bool_decide (size mentions = 0) then ret None
      else
        let oldMentions := extractMentions (notify.BlockOld evt) in
        let merr := merror_New in
        let listeners := listeners b in
        let* merr :=
          for_fold (map_range mentions) merr (fun merr username =>
            if bool_decide (username ∈ oldMentions) then ret merr
            else
              let extract := extractText (model.Block_Title blockChanged) username newLimits in
              let* (userID, err) := deliverMentionNotification b username extract evt in
              let merr :=
                match err with
                | Some err =>
                  merror_Append merr
                    (Errorf ("cannot deliver notification for @" +:+ username) err)
                | None => merr
                end in
              if bool_decide (userID = "") then ret merr
              else
                logger_Debug "Mention notification delivered"
                  [FString "user" username; FInt "listener_count" (length listeners)] ;;
                for_each listeners (fun listener => safeCallListener listener userID evt) ;;
                ret merr) in
        ret (ErrorOrNil merr)
    | _ => ret None
    end.

(** The body of the [range mentions] loop of [BlockChanged], named so that
    lemmas can speak of one iteration; [BlockChanged] itself is written out
    in full above. *)
Definition mention_loop_body (b : Backend) (evt : notify.BlockChangeEvent)
    (blockChanged : model.Block) (merr : merror) (username : string)
    : M (BState W) merror :=
  if bool_decide (username ∈ extractMentions (notify.BlockOld evt)) then ret merr
  else
    let extract := extractText (model.Block_Title blockChanged) username newLimits in
    let* (userID, err) := deliverMentionNotification b username extract evt in
    let merr :=
      match err with
      | Some err =>
        merror_Append merr (Errorf ("cannot deliver notification for @" +:+ username) err)
      | None => merr
      end in
    if bool_decide (userID = "") then ret merr
    else
      logger_Debug "Mention notification delivered"
        [FString "user" username; FInt "listener_count" (length (listeners b))] ;;
      for_each (listeners b) (fun listener => safeCallListener listener userID evt) ;;
      ret merr.

(** The events that get past the guards of [BlockChanged]. *)
Definition passes_guards (evt : notify.BlockChangeEvent) (blockChanged : model.Block) : Prop :=
  notify.Board evt <> None /\ notify.Card evt <> None /\
  notify.Action_ evt <> notify.Delete /\
  notify.BlockChanged evt = Some blockChanged /\
  model.Block_Type blockChanged <> model.TypeOther.

(** The usernames one call attempts, in the order of the loop: those of the
    new text that the old text does not have. *)
Definition new_only (evt : notify.BlockChangeEvent) : list string :=
  List.filter (fun username => negb (bool_decide (username ∈ extractMentions (notify.BlockOld evt))))
    (map_range (extractMentions (notify.BlockChanged evt))).

End Backend.

(** ** Talking about runs *)

(** The actor holds one of the roles that may mention anyone on the team. *)
Definition is_actor_role (m : model.BoardMember) : bool :=
  model.SchemeAdmin m || model.SchemeEditor m || model.SchemeCommenter m.

(** The calls a computation adds to the log when run from [s]. *)
Definition trace_of {W A : Type} (m : M (BState W) A) (s : BState W) : list Call :=
  drop (length (calls s)) (calls (m s).2).

(** [steps R Q m]: from any state [s], running [m] ends in a state related
    to [s] by [R], and a value it returns satisfies [Q]. *)
Definition steps {W A : Type} (R : relation (BState W)) (Q : A -> Prop)
    (m : M (BState W) A) : Prop :=
  forall s, R s (m s).2 /\ forall a, (m s).1 = Ret a -> Q a.

(** The log of [s'] is the log of [s] followed by calls that all satisfy
    [P]. *)
Definition appends {W : Type} (P : Call -> Prop) : relation (BState W) :=
  fun s s' => exists delta, calls s' = calls s ++ delta /\ Forall P delta.

Definition is_user_lookup (c : Call) : Prop :=
  match c with
  | CUserByUsername _ _ => True
  | _ => False
  end.




Definition is_delivery (c : Call) : bool :=
  match c with
  | CMentionDeliver _ _ _ _ => true
  | _ => false
  end.

Definition count_calls (p : Call -> bool) (log : list Call) : nat :=
  length (List.filter p log).

(** The listener invocations in a log: listener, user id and event. *)
Definition on_mentions (log : list Call) : list (nat * string * notify.BlockChangeEvent) :=
  omap (fun c => match c with
                 | COnMention listener userID evt _ => Some (listener, userID, evt)
                 | _ => None
                 end) log.

(** [calm l] does to the world what [l] does, and returns where [l] may
    panic. *)
Definition calm {W : Type} (l : MentionListener W) : MentionListener W :=
  {| listener_id := listener_id l;
     OnMention := fun userID evt w => (Ret tt, (OnMention l userID evt w).2) |}.

Definition calm_backend {W : Type} (b : @Backend W) : @Backend W :=
  {| store := store b; permissions := permissions b; delivery := delivery b;
     wsAdapter := wsAdapter b; listeners := map calm (listeners b) |}.

(** Two states with the same world and the same listener invocations. *)
Definition same_effects {W : Type} (s s' : BState W) : Prop :=
  world s = world s' /\ on_mentions (calls s) = on_mentions (calls s').

(** [m] and [m'] run alike from states with the same effects: same outcome,
    and again states with the same effects. *)
Definition run_alike {W A : Type} (m m' : M (BState W) A) : Prop :=
  forall s s', same_effects s s' ->
    (m s).1 = (m' s').1 /\ same_effects (m s).2 (m' s').2.



(** The editor membership that auto-enrolment inserts. *)
Definition new_editor (boardID userID : string) : model.BoardMember :=
  {| model.BoardID := boardID; model.UserID := userID;
     model.SchemeAdmin := false; model.SchemeEditor := true;
     model.SchemeCommenter := false; model.SchemeViewer := false |}.

(** ** Membership calls of a (board, user) pair *)

(** [m] is a membership of the pair. *)
Definition is_row (boardID userID : string) (m : model.BoardMember) : bool :=
  bool_decide (model.BoardID m = boardID) && bool_decide (model.UserID m = userID).

(** The calls that insert or announce a membership of a (board, user)
    pair. *)
Definition is_save_for (boardID userID : string) (c : Call) : bool :=
  match c with
  | CSaveMember m _ => is_row boardID userID m
  | _ => false
  end.

Definition is_broadcast_for (boardID userID : string) (c : Call) : bool :=
  match c with
  | CBroadcastMemberChange _ _ (Some m) _ => is_row boardID userID m
  | _ => false
  end.

(** ** Membership rows, for any store

    What the collaborators hold is abstract.  [rows boardID userID w] is
    the number of membership rows of the pair in the world [w], and [inv]
    holds of the worlds in which the store is in working order. *)

Section Rows.
Context {W : Type}.
Variable inv : W -> Prop.
Variable rows : string -> string -> W -> nat.




(** From [s] to [s'], started in working order, the pair was enrolled at
    most once, and only if it had no row: the insertions logged for the
    pair, the broadcasts logged for it and the rows added for it are the
    same number, which is 0 or, when the pair had no row in [s], 1. *)
Definition enrolment (boardID userID : string) : relation (BState W) :=
  fun s s' =>
    inv (world s) ->
    inv (world s') /\
    exists delta,
      calls s' = calls s ++ delta /\
      count_calls (is_broadcast_for boardID userID) delta
        = count_calls (is_save_for boardID userID) delta /\
      rows boardID userID (world s')
        = rows boardID userID (world s) + count_calls (is_save_for boardID userID) delta /\
      (count_calls (is_save_for boardID userID) delta = 0 \/
       (count_calls (is_save_for boardID userID) delta = 1 /\
        rows boardID userID (world s) = 0)).

End Rows.

(** ** Sample collaborators, for running the code on concrete events *)

(** *** A store in memory

    The backend reaches its store through the [Store] interface, and the
    sample backend is given [mem_store]: a membership table kept as a list
    of rows, a lookup that answers the first row of the (board, user) pair
    or else a NotFound error, and a [SaveMember] that appends a row and
    returns it.  The store of the repository is [sqlstore], below, whose
    lookup and [SaveMember] can fail and whose [SaveMember] updates a row
    that is there; [SqlSample] runs the backend on it.  No theorem assumes
    [mem_store]. *)

Record MemWorld (X : Type) : Type := mkMemWorld {
  members : list model.BoardMember;
  ext : X }.
Arguments mkMemWorld {X} members ext.
Arguments members {X} m.
Arguments ext {X} m.

Definition ErrMemberNotFound : error := ErrExternal "board member not found".

Definition mem_store {X : Type} : Store (MemWorld X) :=
  {| GetMemberForBoard := fun boardID userID w =>
       match List.find (is_row boardID userID) (members w) with
       | Some m => (Ret (Some m, None), w)
       | None => (Ret (None, Some ErrMemberNotFound), w)
       end;
     Store_IsErrNotFound := fun err => bool_decide (err = Some ErrMemberNotFound);
     SaveMember := fun m w =>
       (Ret (Some m, None), {| members := members w ++ [m]; ext := ext w |}) |}.

Module Sample.

Record Ext : Type := mkExt {
  posts : list mm_model.Post;
  heard : list (nat * string);
  transport_down : bool }.

Definition World : Type := MemWorld Ext.

Definition alice : mm_model.User := {| mm_model.User_Id := "u-alice"; mm_model.Username := "alice" |}.
Definition bob : mm_model.User := {| mm_model.User_Id := "u-bob"; mm_model.Username := "bob" |}.
Definition carol : mm_model.User := {| mm_model.User_Id := "u-carol"; mm_model.Username := "carol" |}.

Definition directory : list mm_model.User := [alice; bob; carol].

Definition team_directory : list (string * string) :=
  [("u-alice", "team1"); ("u-bob", "team1")].

Definition ErrUserNotFound : error := ErrExternal "user not found".

Definition sample_api : PluginAPI World :=
  {| GetUserByID := fun userID w =>
       match List.find (fun u => bool_decide (mm_model.User_Id u = userID)) directory with
       | Some u => (Ret (Some u, None), w)
       | None => (Ret (None, Some ErrUserNotFound), w)
       end;
     GetDirectChannel := fun userID botID w =>
       (Ret (Some {| mm_model.Channel_Id := "dm-" +:+ userID |}, None), w);
     CreatePost := fun post w =>
       if transport_down (ext w)
       then (Ret (Some (ErrExternal "cannot create post")), w)
       else (Ret None,
             {| members := members w;
                ext := {| posts := posts (ext w) ++ [post]; heard := heard (ext w);
                          transport_down := false |} |}) |}.

Definition MakeCardLink (serverRoot teamID boardID cardID : string) : string :=
  serverRoot +:+ "/team/" +:+ teamID +:+ "/" +:+ boardID +:+ "/0/" +:+ cardID.

Definition formatMessage (author extract cardTitle link : string)
    (block : option model.Block) : string :=
  "@" +:+ author +:+ " mentioned you in [" +:+ cardTitle +:+ "](" +:+ link +:+ ") " +:+ extract.

Definition sample_pd : plugindelivery.PluginDelivery :=
  {| plugindelivery.botID := "bot";
     plugindelivery.serverRoot := "https://boards";
     plugindelivery.api := sample_api |}.

Definition sample_delivery : MentionDelivery World :=
  {| UserByUsername := fun username w =>
       match List.find (fun u => bool_decide (mm_model.Username u = username)) directory with
       | Some u => (Ret (Some u, None), w)
       | None => (Ret (None, Some ErrUserNotFound), w)
       end;
     Delivery_IsErrNotFound := fun err => bool_decide (err = Some ErrUserNotFound);
     MentionDeliver := plugindelivery.MentionDeliver MakeCardLink formatMessage sample_pd |}.

Definition sample_permissions : PermissionsService World :=
  {| HasPermissionToTeam := fun userID teamID perm w =>
       (Ret (bool_decide ((userID, teamID) ∈ team_directory)), w);
     HasPermissionToBoard := fun userID boardID perm w =>
       (Ret (bool_decide (List.find (is_row boardID userID) (members w) ≠ None)), w) |}.

Definition sample_adapter : Adapter World :=
  {| BroadcastMemberChange := fun teamID boardID member w => (Ret tt, w) |}.

(** A listener that records what it hears, and one that records and then
    faults. *)
Definition hear (id : nat) (userID : string) (w : World) : World :=
  {| members := members w;
     ext := {| posts := posts (ext w); heard := heard (ext w) ++ [(id, userID)];
               transport_down := transport_down (ext w) |} |}.

Definition recorder (id : nat) : MentionListener World :=
  {| listener_id := id; OnMention := fun userID evt w => (Ret tt, hear id userID w) |}.

Definition faulty (id : nat) : MentionListener World :=
  {| listener_id := id;
     OnMention := fun userID evt w => (Panic (PanicValue "listener fault"), hear id userID w) |}.

Definition backend_with (st : Store World) (ls : list (MentionListener World)) : Backend :=
  {| store := st;
     permissions := sample_permissions;
     delivery := sample_delivery;
     wsAdapter := sample_adapter;
     listeners := ls |}.

Definition backend (ls : list (MentionListener World)) : Backend := backend_with mem_store ls.

(** A store whose lookups fail with an error that is not NotFound. *)
Definition broken_lookup_store : Store World :=
  {| GetMemberForBoard := fun boardID userID w =>
       (Ret (None, Some (ErrExternal "connection reset")), w);
     Store_IsErrNotFound := Store_IsErrNotFound (mem_store (X := Ext));
     SaveMember := SaveMember mem_store |}.

(** A small tokenizer: [@] followed by a maximal run of letters, digits,
    [-], [_] and [.]. *)
Definition is_name_char (c : ascii) : bool :=
  let n := nat_of_ascii c in
  (Nat.leb 97 n && Nat.leb n 122) || (Nat.leb 65 n && Nat.leb n 90)
  || (Nat.leb 48 n && Nat.leb n 57) || bool_decide (n = 45) || bool_decide (n = 95)
  || bool_decide (n = 46).

Definition flush (name : option string) : gset string :=
  match name with
  | Some n => if bool_decide (n = "") then ∅ else {[ n ]}
  | None => ∅
  end.

Fixpoint scan (name : option string) (text : string) : gset string :=
  match text with
  | EmptyString => flush name
  | String c rest =>
    if bool_decide (c = "@"%char) then flush name ∪ scan (Some "") rest
    else
      match name with
      | Some n =>
        if is_name_char c then scan (Some (n +:+ String c EmptyString)) rest
        else flush name ∪ scan None rest
      | None => scan None rest
      end
  end.

Definition helpers : Helpers :=
  {| mentionTokens := scan None;
     limits := unit;
     newLimits := tt;
     extractText := fun text username lim => text;
     map_range := elements |}.

Definition BlockChanged (b : Backend) (evt : notify.BlockChangeEvent)
    : M (BState World) (option merror) :=
  @BlockChanged World helpers b evt.

Definition world0 : World :=
  {| members := []; ext := {| posts := []; heard := []; transport_down := false |} |}.

Definition world_down : World :=
  {| members := []; ext := {| posts := []; heard := []; transport_down := true |} |}.

Definition start (w : World) : BState World := {| world := w; calls := [] |}.

Definition board1 : model.Board :=
  {| model.Board_ID := "board1"; model.Board_TeamID := "team1";
     model.Board_Type := model.BoardTypeOpen |}.

Definition board2 : model.Board :=
  {| model.Board_ID := "board2"; model.Board_TeamID := "team1";
     model.Board_Type := model.BoardTypePrivate |}.

Definition card1 : model.Block :=
  {| model.Block_ID := "card1"; model.Block_Type := model.TypeOther;
     model.Block_Title := "Release plan" |}.

Definition text_block (id text : string) : model.Block :=
  {| model.Block_ID := id; model.Block_Type := model.TypeText; model.Block_Title := text |}.

Definition member (boardID userID : string) (admin editor commenter viewer : bool)
    : model.BoardMember :=
  {| model.BoardID := boardID; model.UserID := userID; model.SchemeAdmin := admin;
     model.SchemeEditor := editor; model.SchemeCommenter := commenter;
     model.SchemeViewer := viewer |}.

Definition bob_editor : model.BoardMember := member "board1" "u-bob" false true false false.

Definition carol_editor : model.BoardMember := member "board1" "u-carol" false true false false.

Definition bob_viewer : model.BoardMember := member "board2" "u-bob" false false false true.

Definition event (board : model.Board) (actor : option model.BoardMember)
    (old : option string) (new : string) : notify.BlockChangeEvent :=
  {| notify.Action_ := notify.Update;
     notify.TeamID := "team1";
     notify.Board := Some board;
     notify.Card := Some card1;
     notify.BlockChanged := Some (text_block "block1" new);
     notify.BlockOld := option_map (text_block "block1") old;
     notify.ModifiedBy := actor |}.

End Sample.


(** ** More ways to read a log *)

(** The usernames looked up, in the order of the calls. *)
Definition lookups_of (log : list Call) : list string :=
  omap (fun c => match c with
                 | CUserByUsername username _ => Some username
                 | _ => None
                 end) log.

(** Calls that read or write a membership, or announce one. *)
Definition is_membership_call (c : Call) : bool :=
  match c with
  | CGetMemberForBoard _ _ _ | CSaveMember _ _ | CBroadcastMemberChange _ _ _ _ => true
  | _ => false
  end.

(** The registry holds no listener with the identity of [l]. *)
Definition unregistered {W : Type} (l : MentionListener W) (ls : list (MentionListener W))
    : Prop :=
  Forall (fun x => listener_id x <> listener_id l) ls.

(** The error a call handed back, for the calls whose error an attempt
    passes on: the user lookup, [SaveMember] and [MentionDeliver]. *)
Definition surfaced_error (c : Call) : option error :=
  match c with
  | CUserByUsername _ (Ret (_, Some err))
  | CSaveMember _ (Ret (_, Some err))
  | CMentionDeliver _ _ _ (Ret (_, Some err)) => Some err
  | _ => None
  end.

(** Every listener invocation in [delta] carries the event itself and a
    user id that is not empty, goes to a listener of the registry, and
    comes with a [MentionDeliver] call in [delta] that returned that id. *)
Definition told_only_delivered {W : Type} (b : @Backend W) (evt : notify.BlockChangeEvent)
    (delta : list Call) : Prop :=
  forall listener userID e,
    (listener, userID, e) ∈ on_mentions delta ->
    e = evt /\ userID <> "" /\ listener ∈ listener_id <$> listeners b /\
    exists user extract err,
      CMentionDeliver (Some user) extract evt (Ret (userID, err)) ∈ delta.

Definition tells {W : Type} (b : @Backend W) (evt : notify.BlockChangeEvent)
    : relation (BState W) :=
  fun s s' => exists delta, calls s' = calls s ++ delta /\ told_only_delivered b evt delta.

Definition is_on_mention (c : Call) : Prop :=
  match c with
  | COnMention _ _ _ _ => True
  | _ => False
  end.

(** ** The plugin API, observed

    [plugindelivery.MentionDeliver] reaches the outside only through
    [pd.api].  To speak about the calls it makes, the API is wrapped so that
    every call is also written to a log carried next to the world; the
    wrapped API answers exactly as the API it wraps. *)

Inductive ApiCall : Type :=
| AGetUserByID (userID : string) (r : Res (option mm_model.User * option error))
| AGetDirectChannel (userID1 userID2 : string)
    (r : Res (option mm_model.Channel * option error))
| ACreatePost (post : mm_model.Post) (r : Res (option error)).

Definition observe {W C A : Type} (c : Res A -> C) (method : M W A)
    : M (W * list C) A :=
  fun st =>
    let '(r, w') := method st.1 in
    (r, (w', st.2 ++ [c r])).

Definition observed {W : Type} (api : PluginAPI W) : PluginAPI (W * list ApiCall) :=
  {| GetUserByID := fun userID => observe (AGetUserByID userID) (GetUserByID api userID);
     GetDirectChannel := fun userID1 userID2 =>
       observe (AGetDirectChannel userID1 userID2) (GetDirectChannel api userID1 userID2);
     CreatePost := fun post => observe (ACreatePost post) (CreatePost api post) |}.

Definition observed_pd {W : Type} (pd : @plugindelivery.PluginDelivery W)
    : @plugindelivery.PluginDelivery (W * list ApiCall) :=
  {| plugindelivery.botID := plugindelivery.botID pd;
     plugindelivery.serverRoot := plugindelivery.serverRoot pd;
     plugindelivery.api := observed (plugindelivery.api pd) |}.

(** The calls a computation adds to the log. *)
Definition added_calls {W C A : Type} (m : M (W * list C) A) (st : W * list C) : list C :=
  drop (length st.2) (m st).2.2.

Definition is_create_post (c : ApiCall) : Prop :=
  match c with
  | ACreatePost _ _ => True
  | _ => False
  end.

(** ** sqlstore: the board members of the board store

    The Go code appended to webapp/src/components/boardComponent.tsx is the
    board store of package [sqlstore].  Embedded here are its functions
    that read and write board members: what the [Store] of the mentions
    backend stands for.  A statement is the value the squirrel builder
    holds when [Query] or [Exec] is called on it; the database is a
    collaborator. *)

Module sq.

Inductive Value : Type :=
| VString (v : string)
| VBool (v : bool).

(** [sq.Eq{column: value}] *)
Record Eq : Type := mkEq {
  Eq_column : string;
  Eq_value : Value }.

Record SelectBuilder : Type := mkSelect {
  Select : list string;
  From : string;
  Select_Where : list Eq }.

(** [SetMap] takes a Go map: a finite map, without an order. *)
Record InsertBuilder : Type := mkInsert {
  Insert_Into : string;
  Columns : list string;
  Values : list Value;
  SetMap : gmap string Value;
  Suffix : option (string * list Value) }.

Record DeleteBuilder : Type := mkDelete {
  Delete_From : string;
  Delete_Where : list Eq }.

(** The statements that are run with [Exec]. *)
Inductive Statement : Type :=
| Insert (q : InsertBuilder)
| Delete (q : DeleteBuilder).

End sq.

#[global] Instance sq_Value_eq_dec : EqDecision sq.Value.
Proof. solve_decision. Defined.

Module sql.

(** [sql.ErrNoRows] of the Go standard library. *)
Definition ErrNoRows : error := ErrExternal "sql: no rows in result set".

(** [*sql.Rows]: a cursor.  [rows_id] tells one cursor from another;
    [pending] are the rows that [Next] will reach, as the driver holds
    them. *)
Record Rows (R : Type) : Type := mkRows {
  rows_id : nat;
  pending : list R }.
Arguments mkRows {R} rows_id pending.
Arguments rows_id {R} r.
Arguments pending {R} r.

(** [sql.Result], with what its [RowsAffected()] returns. *)
Record Result : Type := mkResult {
  RowsAffected : Z * option error }.

End sql.

(** [defer d] ahead of [m]: [d] runs when [m] is over, also when [m]
    panics, and a panic of [d] takes the place of the outcome of [m]. *)
Definition defer {S A : Type} (d : M S unit) (m : M S A) : M S A :=
  fun s =>
    let '(r, s') := m s in
    match d s' with
    | (Ret tt, s'') => (r, s'')
    | (Panic p, s'') => (Panic p, s'')
    end.

(** [strings.HasPrefix] *)
Definition strings_HasPrefix (s prefix : string) : bool := String.prefix prefix s.

(** [strings.Replace(s, old, new, 1)]: the first instance of [old] in [s],
    if there is one, is replaced by [new]. *)
Fixpoint strings_Replace1 (s old new : string) {struct s} : string :=
  if String.prefix old s
  then new +:+ String.substring (String.length old) (String.length s - String.length old) s
  else match s with
       | EmptyString => EmptyString
       | String c s' => String c (strings_Replace1 s' old new)
       end.

Module sqlstore.

Definition boardFields (prefix : string) : list string :=
  let fields :=
    ["id";
     "team_id";
     "COALESCE(channel_id, '')";
     "COALESCE(created_by, '')";
     "modified_by";
     "type";
     "title";
     "description";
     "icon";
     "show_description";
     "is_template";
     "template_version";
     "COALESCE(properties, '{}')";
     "COALESCE(card_properties, '[]')";
     "create_at";
     "update_at";
     "delete_at"] in
  if bool_decide (prefix = "") then fields
  else
    map (fun field =>
           if strings_HasPrefix field "COALESCE("
           then strings_Replace1 field "COALESCE(" ("COALESCE(" +:+ prefix)
           else prefix +:+ field)
        fields.

Section SQLStore.
Context {W R : Type}.

(** [model.MysqlDBType] *)
Variable MysqlDBType : string.

(** [sq.BaseRunner], with the statement the builder was run on in place of
    its SQL text. *)
Record BaseRunner : Type := mkRunner {
  Query : sq.SelectBuilder -> M W (option (sql.Rows R) * option error);
  Exec : sq.Statement -> M W (option sql.Result * option error) }.

(** The fields and helpers of [SQLStore] that this part of the store uses:
    [s.logger.Error(msg, mlog.Err(err))], [s.CloseRows(rows)], and
    [rows.Scan] into the seven fields of a [model.BoardMember] ([Roles]
    among them, which nothing embedded here reads). *)
Record SQLStore : Type := mkSQLStore {
  dbType : string;
  tablePrefix : string;
  log_Error : string -> error -> M W unit;
  CloseRows : option (sql.Rows R) -> M W unit;
  Scan : R -> model.BoardMember + error }.

Definition boardMemberFields : list string :=
  ["board_id"; "user_id"; "roles"; "scheme_admin"; "scheme_editor"; "scheme_commenter";
   "scheme_viewer"].

(** The loop of [boardMembersFromRows], with the rows [Next] has not yet
    reached and the members appended so far.  A slice is a list, and the
    nil slice is the empty list. *)
Fixpoint scan_rows (s : SQLStore) (rows : list R) (boardMembers : list model.BoardMember)
    : list model.BoardMember * option error :=
  match rows with
  | [] => (boardMembers, None)
  | row :: rows' =>
      match Scan s row with
      | inr err => ([], Some err)
      | inl boardMember => scan_rows s rows' (boardMembers ++ [boardMember])
      end
  end.

Definition boardMembersFromRows (s : SQLStore) (rows : option (sql.Rows R))
    : M W (list model.BoardMember * option error) :=
  let* rows := deref rows in
  ret (scan_rows s (sql.pending rows) []).

Definition getMemberForBoard_query (s : SQLStore) (boardID userID : string)
    : sq.SelectBuilder :=
  {| sq.Select := boardMemberFields;
     sq.From := tablePrefix s +:+ "board_members";
     sq.Select_Where :=
       [sq.mkEq "board_id" (sq.VString boardID); sq.mkEq "user_id" (sq.VString userID)] |}.

Definition getMemberForBoard (s : SQLStore) (db : BaseRunner) (boardID userID : string)
    : M W (option model.BoardMember * option error) :=
  let query := getMemberForBoard_query s boardID userID in
  let* (rows, err) := Query db query in
  match err with
  | Some err =>
      log_Error s "getMemberForBoard ERROR" err ;;
      ret (None, Some err)
  | None =>
      defer (CloseRows s rows)
        (let* (members, err) := boardMembersFromRows s rows in
         match err with
         | Some err => ret (None, Some err)
         | None =>
             match members with
             | [] => ret (None, Some sql.ErrNoRows)
             | member :: _ => ret (Some member, None)
             end
         end)
  end.

Definition getMembersForUser_query (s : SQLStore) (userID : string) : sq.SelectBuilder :=
  {| sq.Select := boardMemberFields;
     sq.From := tablePrefix s +:+ "board_members";
     sq.Select_Where := [sq.mkEq "user_id" (sq.VString userID)] |}.

Definition getMembersForUser (s : SQLStore) (db : BaseRunner) (userID : string)
    : M W (list model.BoardMember * option error) :=
  let query := getMembersForUser_query s userID in
  let* (rows, err) := Query db query in
  match err with
  | Some err =>
      log_Error s "getMembersForUser ERROR" err ;;
      ret ([], Some err)
  | None =>
      defer (CloseRows s rows)
        (let* (members, err) := boardMembersFromRows s rows in
         match err with
         | Some err => ret ([], Some err)
         | None => ret (members, None)
         end)
  end.

Definition getMembersForBoard_query (s : SQLStore) (boardID : string) : sq.SelectBuilder :=
  {| sq.Select := boardMemberFields;
     sq.From := tablePrefix s +:+ "board_members";
     sq.Select_Where := [sq.mkEq "board_id" (sq.VString boardID)] |}.

Definition getMembersForBoard (s : SQLStore) (db : BaseRunner) (boardID : string)
    : M W (list model.BoardMember * option error) :=
  let query := getMembersForBoard_query s boardID in
  let* (rows, err) := Query db query in
  match err with
  | Some err =>
      log_Error s "getMembersForBoard ERROR" err ;;
      ret ([], Some err)
  | None =>
      defer (CloseRows s rows) (boardMembersFromRows s rows)
  end.

(** The insert into [board_members] that [saveMember] builds. *)
Definition saveMember_query (s : SQLStore) (bm : model.BoardMember) : sq.InsertBuilder :=
  let queryValues : gmap string sq.Value :=
    {[ "board_id" := sq.VString (model.BoardID bm);
       "user_id" := sq.VString (model.UserID bm);
       "roles" := sq.VString "";
       "scheme_admin" := sq.VBool (model.SchemeAdmin bm);
       "scheme_editor" := sq.VBool (model.SchemeEditor bm);
       "scheme_commenter" := sq.VBool (model.SchemeCommenter bm);
       "scheme_viewer" := sq.VBool (model.SchemeViewer bm) ]} in
  {| sq.Insert_Into := tablePrefix s +:+ "board_members";
     sq.Columns := [];
     sq.Values := [];
     sq.SetMap := queryValues;
     sq.Suffix :=
       if bool_decide (dbType s = MysqlDBType)
       then Some ("ON DUPLICATE KEY UPDATE scheme_admin = ?, scheme_editor = ?, scheme_commenter = ?, scheme_viewer = ?",
                  [sq.VBool (model.SchemeAdmin bm); sq.VBool (model.SchemeEditor bm);
                   sq.VBool (model.SchemeCommenter bm); sq.VBool (model.SchemeViewer bm)])
       else Some ("ON CONFLICT (board_id, user_id)
             DO UPDATE SET scheme_admin = EXCLUDED.scheme_admin, scheme_editor = EXCLUDED.scheme_editor,
			   scheme_commenter = EXCLUDED.scheme_commenter, scheme_viewer = EXCLUDED.scheme_viewer",
                  []) |}.

(** The insert into [board_members_history] of [saveMember] and
    [deleteMember]. *)
Definition addToMembersHistory (s : SQLStore) (boardID userID action : string)
    : sq.InsertBuilder :=
  {| sq.Insert_Into := tablePrefix s +:+ "board_members_history";
     sq.Columns := ["board_id"; "user_id"; "action"];
     sq.Values := [sq.VString boardID; sq.VString userID; sq.VString action];
     sq.SetMap := ∅;
     sq.Suffix := None |}.

Definition saveMember (s : SQLStore) (db : BaseRunner) (bm : option model.BoardMember)
    : M W (option model.BoardMember * option error) :=
  let* bm_ := deref bm in
  let* (oldMember, err) := getMemberForBoard s db (model.BoardID bm_) (model.UserID bm_) in
  if match err with
     | Some err => negb (errors_Is err sql.ErrNoRows)
     | None => false
     end
  then ret (None, err)
  else
    let* (_, err) := Exec db (sq.Insert (saveMember_query s bm_)) in
    match err with
    | Some err => ret (None, Some err)
    | None =>
        match oldMember with
        | None =>
            let* (_, err) :=
              Exec db (sq.Insert (addToMembersHistory s (model.BoardID bm_)
                                    (model.UserID bm_) "created")) in
            match err with
            | Some err => ret (None, Some err)
            | None => ret (bm, None)
            end
        | Some _ => ret (bm, None)
        end
    end.

Definition deleteMember_query (s : SQLStore) (boardID userID : string) : sq.DeleteBuilder :=
  {| sq.Delete_From := tablePrefix s +:+ "board_members";
     sq.Delete_Where :=
       [sq.mkEq "board_id" (sq.VString boardID); sq.mkEq "user_id" (sq.VString userID)] |}.

Definition deleteMember (s : SQLStore) (db : BaseRunner) (boardID userID : string)
    : M W (option error) :=
  let* (result, err) := Exec db (sq.Delete (deleteMember_query s boardID userID)) in
  match err with
  | Some err => ret (Some err)
  | None =>
      let* result := deref result in
      let '(rowsAffected, err) := sql.RowsAffected result in
      match err with
      | Some err => ret (Some err)
      | None =>
          if (0 <? rowsAffected)%Z
          then
            let* (_, err) :=
              Exec db (sq.Insert (addToMembersHistory s boardID userID "deleted")) in
            match err with
            | Some err => ret (Some err)
            | None => ret None
            end
          else ret None
      end
  end.

End SQLStore.
Arguments BaseRunner : clear implicits.
Arguments SQLStore : clear implicits.
End sqlstore.

(** ** The database, observed *)

Inductive DBCall (R : Type) : Type :=
| DQuery (q : sq.SelectBuilder) (r : Res (option (sql.Rows R) * option error))
| DExec (q : sq.Statement) (r : Res (option sql.Result * option error))
| DCloseRows (rows : option (sql.Rows R)) (r : Res unit)
| DLogError (msg : string) (err : error) (r : Res unit).
Arguments DQuery {R} q r.
Arguments DExec {R} q r.
Arguments DCloseRows {R} rows r.
Arguments DLogError {R} msg err r.

Definition observed_db {W R : Type} (db : sqlstore.BaseRunner W R)
    : sqlstore.BaseRunner (W * list (DBCall R)) R :=
  {| sqlstore.Query := fun q => observe (DQuery q) (sqlstore.Query db q);
     sqlstore.Exec := fun q => observe (DExec q) (sqlstore.Exec db q) |}.

Definition observed_store {W R : Type} (s : sqlstore.SQLStore W R)
    : sqlstore.SQLStore (W * list (DBCall R)) R :=
  {| sqlstore.dbType := sqlstore.dbType s;
     sqlstore.tablePrefix := sqlstore.tablePrefix s;
     sqlstore.log_Error := fun msg err =>
       observe (DLogError msg err) (sqlstore.log_Error s msg err);
     sqlstore.CloseRows := fun rows => observe (DCloseRows rows) (sqlstore.CloseRows s rows);
     sqlstore.Scan := sqlstore.Scan s |}.

(** The statements run with [Exec], in order. *)
Definition execs_of {R : Type} (log : list (DBCall R)) : list sq.Statement :=
  omap (fun c => match c with
                 | DExec q _ => Some q
                 | _ => None
                 end) log.

(** The cursors handed out by a [Query] that returned no error, and the
    cursors closed. *)
Definition opened {R : Type} (log : list (DBCall R)) : list (option (sql.Rows R)) :=
  omap (fun c => match c with
                 | DQuery _ (Ret (rows, None)) => Some rows
                 | _ => None
                 end) log.

Definition closed {R : Type} (log : list (DBCall R)) : list (option (sql.Rows R)) :=
  omap (fun c => match c with
                 | DCloseRows rows _ => Some rows
                 | _ => None
                 end) log.

(** ** A database in memory

    A runner that keeps the two tables of this part of the store as lists
    of rows, for running the store on concrete inputs. *)

Module SampleDB.

Record DB : Type := mkDB {
  board_members : list (list sq.Value);
  board_members_history : list (list sq.Value);
  cursors : nat;
  down : bool }.

Definition ErrConnection : error := ErrExternal "connection refused".

Definition MysqlDBType : string := "mysql".

Fixpoint column_index (columns : list string) (column : string) : option nat :=
  match columns with
  | [] => None
  | c :: columns' =>
      if bool_decide (c = column) then Some 0
      else S <$> column_index columns' column
  end.

Definition holds (row : list sq.Value) (cond : sq.Eq) : bool :=
  match column_index sqlstore.boardMemberFields (sq.Eq_column cond) with
  | Some i => bool_decide (row !! i = Some (sq.Eq_value cond))
  | None => false
  end.

Definition selected (conds : list sq.Eq) (row : list sq.Value) : bool :=
  forallb (holds row) conds.

Definition same_key (row row' : list sq.Value) : bool :=
  bool_decide (take 2 row = take 2 row').

Definition runner : sqlstore.BaseRunner DB (list sq.Value) :=
  {| sqlstore.Query := fun q db =>
       if down db then (Ret (None, Some ErrConnection), db)
       else
         (Ret (Some (sql.mkRows (cursors db)
                       (List.filter (selected (sq.Select_Where q)) (board_members db))),
               None),
          {| board_members := board_members db;
             board_members_history := board_members_history db;
             cursors := S (cursors db);
             down := false |});
     sqlstore.Exec := fun statement db =>
       if down db then (Ret (None, Some ErrConnection), db)
       else
         match statement with
         | sq.Insert q =>
             match sq.Columns q with
             | [] =>
                 let row :=
                   map (fun column => default (sq.VString "") (sq.SetMap q !! column))
                     sqlstore.boardMemberFields in
                 (Ret (Some (sql.mkResult (1%Z, None)), None),
                  {| board_members :=
                       List.filter (fun row' => negb (same_key row row')) (board_members db)
                       ++ [row];
                     board_members_history := board_members_history db;
                     cursors := cursors db;
                     down := false |})
             | _ :: _ =>
                 (Ret (Some (sql.mkResult (1%Z, None)), None),
                  {| board_members := board_members db;
                     board_members_history := board_members_history db ++ [sq.Values q];
                     cursors := cursors db;
                     down := false |})
             end
         | sq.Delete q =>
             (Ret (Some (sql.mkResult
                           (Z.of_nat (length (List.filter (selected (sq.Delete_Where q))
                                                (board_members db))),
                            None)),
                   None),
              {| board_members :=
                   List.filter (fun row => negb (selected (sq.Delete_Where q) row))
                     (board_members db);
                 board_members_history := board_members_history db;
                 cursors := cursors db;
                 down := false |})
         end |}.

Definition ErrScan : error := ErrExternal "sql: Scan error".

Definition scan (row : list sq.Value) : model.BoardMember + error :=
  match row with
  | [sq.VString boardID; sq.VString userID; sq.VString _; sq.VBool admin; sq.VBool editor;
     sq.VBool commenter; sq.VBool viewer] =>
      inl {| model.BoardID := boardID; model.UserID := userID;
             model.SchemeAdmin := admin; model.SchemeEditor := editor;
             model.SchemeCommenter := commenter; model.SchemeViewer := viewer |}
  | _ => inr ErrScan
  end.

Definition store : sqlstore.SQLStore DB (list sq.Value) :=
  {| sqlstore.dbType := "postgres";
     sqlstore.tablePrefix := "focalboard_";
     sqlstore.log_Error := fun _ _ db => (Ret tt, db);
     sqlstore.CloseRows := fun _ db => (Ret tt, db);
     sqlstore.Scan := scan |}.

Definition row_of (bm : model.BoardMember) : list sq.Value :=
  [sq.VString (model.BoardID bm); sq.VString (model.UserID bm); sq.VString "";
   sq.VBool (model.SchemeAdmin bm); sq.VBool (model.SchemeEditor bm);
   sq.VBool (model.SchemeCommenter bm); sq.VBool (model.SchemeViewer bm)].

Definition empty : DB :=
  {| board_members := []; board_members_history := []; cursors := 0; down := false |}.

Definition with_members (bms : list model.BoardMember) : DB :=
  {| board_members := row_of <$> bms; board_members_history := []; cursors := 0;
     down := false |}.

Definition unreachable : DB :=
  {| board_members := []; board_members_history := []; cursors := 0; down := true |}.

End SampleDB.

(** ** The backend on the board store

    A backend whose [Store] runs [getMemberForBoard] and [saveMember] of
    the board store on the database in memory; the other collaborators are
    the sample ones, which know nothing of the database.  The runner can be
    told to time out on its next queries. *)

Module SqlSample.

Record World : Type := mkWorld {
  db : SampleDB.DB;
  timeouts : nat;
  outside : Sample.World }.

Definition on_db {A : Type} (m : M SampleDB.DB A) : M World A :=
  fun w =>
    let '(r, d) := m (db w) in
    (r, {| db := d; timeouts := timeouts w; outside := outside w |}).

Definition on_outside {A : Type} (m : M Sample.World A) : M World A :=
  fun w =>
    let '(r, o) := m (outside w) in
    (r, {| db := db w; timeouts := timeouts w; outside := o |}).

Definition ErrTimeout : error := ErrExternal "context deadline exceeded".

Definition runner : sqlstore.BaseRunner World (list sq.Value) :=
  {| sqlstore.Query := fun q w =>
       match timeouts w with
       | S n =>
           (Ret (None, Some ErrTimeout),
            {| db := db w; timeouts := n; outside := outside w |})
       | 0 => on_db (sqlstore.Query SampleDB.runner q) w
       end;
     sqlstore.Exec := fun statement => on_db (sqlstore.Exec SampleDB.runner statement) |}.

Definition sqlStore : sqlstore.SQLStore World (list sq.Value) :=
  {| sqlstore.dbType := "postgres";
     sqlstore.tablePrefix := "focalboard_";
     sqlstore.log_Error := fun _ _ w => (Ret tt, w);
     sqlstore.CloseRows := fun _ w => (Ret tt, w);
     sqlstore.Scan := SampleDB.scan |}.

(** The store's NotFound test is outside the embedded code; here it
    recognises [sql.ErrNoRows], also when wrapped. *)
Definition IsErrNotFound (err : option error) : bool :=
  match err with
  | Some e => errors_Is e sql.ErrNoRows
  | None => false
  end.

(** The exported methods of the store run the unexported functions on the
    store's own runner. *)
Definition boardStore : Store World :=
  {| GetMemberForBoard := sqlstore.getMemberForBoard sqlStore runner;
     Store_IsErrNotFound := IsErrNotFound;
     SaveMember := fun bm =>
       sqlstore.saveMember SampleDB.MysqlDBType sqlStore runner (Some bm) |}.

Definition permissionsService : PermissionsService World :=
  {| HasPermissionToTeam := fun userID teamID perm =>
       on_outside (HasPermissionToTeam Sample.sample_permissions userID teamID perm);
     HasPermissionToBoard := fun userID boardID perm =>
       on_outside (HasPermissionToBoard Sample.sample_permissions userID boardID perm) |}.

Definition mentionDelivery : MentionDelivery World :=
  {| UserByUsername := fun username =>
       on_outside (UserByUsername Sample.sample_delivery username);
     Delivery_IsErrNotFound := Delivery_IsErrNotFound Sample.sample_delivery;
     MentionDeliver := fun user extract evt =>
       on_outside (MentionDeliver Sample.sample_delivery user extract evt) |}.

Definition adapter : Adapter World :=
  {| BroadcastMemberChange := fun teamID boardID member =>
       on_outside (BroadcastMemberChange Sample.sample_adapter teamID boardID member) |}.

Definition listener (l : MentionListener Sample.World) : MentionListener World :=
  {| listener_id := listener_id l;
     OnMention := fun userID evt => on_outside (OnMention l userID evt) |}.

Definition backend (ls : list (MentionListener Sample.World)) : @Backend World :=
  {| store := boardStore;
     permissions := permissionsService;
     delivery := mentionDelivery;
     wsAdapter := adapter;
     listeners := listener <$> ls |}.

Definition BlockChanged (b : @Backend World) (evt : notify.BlockChangeEvent)
    : M (BState World) (option merror) :=
  @BlockChanged World Sample.helpers b evt.

(** The membership rows of a pair in the table, and the worlds in which
    the database answers: no timeout pending, the database up, and every
    row of the table one that [saveMember] writes. *)
Definition key (boardID userID : string) : list sq.Eq :=
  [sq.mkEq "board_id" (sq.VString boardID); sq.mkEq "user_id" (sq.VString userID)].

Definition rows (boardID userID : string) (w : World) : nat :=
  length (List.filter (SampleDB.selected (key boardID userID))
            (SampleDB.board_members (db w))).

Definition inv (w : World) : Prop :=
  timeouts w = 0 /\ SampleDB.down (db w) = false /\
  exists bms, SampleDB.board_members (db w) = SampleDB.row_of <$> bms.




(** A start with the given members on the board table and the given
    number of queries that will time out. *)
Definition start (bms : list model.BoardMember) (n : nat) : BState World :=
  {| world := {| db := SampleDB.with_members bms; timeouts := n;
                 outside := Sample.world0 |};
     calls := [] |}.

End SqlSample.

(** * Properties *)

(** ** Rules for [steps] *)

Section Steps.
Context {W : Type} (R : relation (BState W)) `{!PreOrder R}.

Lemma steps_weaken {A} (Q Q' : A → Prop) (m : M (BState W) A) :
  (∀ a, Q a → Q' a) → steps R Q m → steps R Q' m.
Proof. intros HQ Hm s0. destruct (Hm s0) as [HR Hret]. split; [done | by eauto]. Qed.

Lemma steps_ret {A} (Q : A → Prop) (a : A) : Q a → steps R Q (ret a).
Proof. intros Ha s0. simpl. split; [reflexivity | by intros ? [= <-]]. Qed.

Lemma steps_raise {A} (Q : A → Prop) (p : panic) : steps R Q (raise p).
Proof. intros s0. simpl. split; [reflexivity | done]. Qed.

Lemma steps_deref {A} (Q : A → Prop) (ptr : option A) :
  (∀ a, ptr = Some a → Q a) → steps R Q (deref ptr).
Proof. intros Hq. destruct ptr; simpl; [apply steps_ret; auto | apply steps_raise]. Qed.

Lemma steps_bind {A B} (Q : A → Prop) (Q' : B → Prop)
    (m : M (BState W) A) (k : A → M (BState W) B) :
  steps R Q m → (∀ a, Q a → steps R Q' (k a)) → steps R Q' (bind m k).
Proof.
  intros Hm Hk s0. unfold bind. destruct (Hm s0) as [HR1 Hret1].
  destruct (m s0) as [[a | p] s1]; simpl in *.
  - destruct (Hk a (Hret1 a eq_refl) s1) as [HR2 Hret2].
    split; [by etrans | done].
  - split; [done | by intros].
Qed.

Lemma steps_recover (m : M (BState W) unit) handler :
  steps R (λ _, True) m → (∀ r, steps R (λ _, True) (handler r)) →
  steps R (λ _, True) (recover m handler).
Proof.
  intros Hm Hh s0. unfold recover. destruct (Hm s0) as [HR1 _].
  destruct (m s0) as [[[] | p] s1]; simpl in *; [done |].
  destruct (Hh p s1) as [HR2 _]. split; [by etrans | done].
Qed.

Lemma steps_for_each {A} (xs : list A) (body : A → M (BState W) unit) :
  (∀ x, x ∈ xs → steps R (λ _, True) (body x)) → steps R (λ _, True) (for_each xs body).
Proof.
  induction xs as [| x xs IH]; intros Hbody; simpl.
  - by apply steps_ret.
  - eapply steps_bind; [apply Hbody; left |].
    intros _ _. apply IH. intros y Hy. apply Hbody. by right.
Qed.

Lemma steps_for_fold {A B} (xs : list A) (acc : B) (body : B → A → M (BState W) B) :
  (∀ acc x, x ∈ xs → steps R (λ _, True) (body acc x)) →
  steps R (λ _, True) (for_fold xs acc body).
Proof.
  revert acc. induction xs as [| x xs IH]; intros acc Hbody; simpl.
  - by apply steps_ret.
  - eapply steps_bind; [apply Hbody; left |].
    intros acc' _. apply IH. intros acc'' y Hy. apply Hbody. by right.
Qed.


End Steps.

Ltac step_ret := apply steps_ret; [apply _ |].

(** Walk a computation by its structure; [leaf] settles the calls, and the
    walk leaves alone a goal on which [stop] succeeds. *)
Ltac steps_walk stop leaf :=
  tryif stop then idtac else
  lazymatch goal with
  | |- steps _ _ (ret _) => step_ret; exact I
  | |- steps _ _ (raise _) => apply steps_raise; apply _
  | |- steps _ _ (deref _) => apply steps_deref; [apply _ | intros; exact I]
  | |- steps _ _ (bind _ _) =>
    eapply (steps_bind _ (λ _, True));
      [steps_walk stop leaf | intros ? _; cbv beta; steps_walk stop leaf]
  | |- steps _ _ (recover _ _) =>
    apply steps_recover; [apply _ | steps_walk stop leaf | intros ?; steps_walk stop leaf]
  | |- steps _ _ (for_each _ _) =>
    apply steps_for_each; [apply _ | intros ? ?; cbv beta; steps_walk stop leaf]
  | |- steps _ _ (for_fold _ _ _) =>
    apply steps_for_fold; [apply _ | intros ? ? ?; cbv beta; steps_walk stop leaf]
  | |- steps _ _ (safeCallListener _ _ _) => unfold safeCallListener; steps_walk stop leaf
  | |- steps _ _ (if ?c then _ else _) => destruct c eqn:?; steps_walk stop leaf
  | |- steps _ _ (match ?x with _ => _ end) => destruct x eqn:?; steps_walk stop leaf
  | |- _ => leaf
  end.

Ltac never_stop := idtac; fail.


Section Properties.
Context {W : Type} {hp : Helpers}.

Implicit Types (b : @Backend W) (evt : notify.BlockChangeEvent) (s : BState W).

(** ** The log only grows *)

#[local] Instance appends_preorder (P : Call → Prop) : PreOrder (appends (W := W) P).
Proof.
  split.
  - intros s0. exists []. by rewrite app_nil_r.
  - intros s0 s1 s2 (d1 & Hc1 & Hall1) (d2 & Hc2 & Hall2).
    exists (d1 ++ d2). rewrite Hc2, Hc1, app_assoc. split; [done | by apply Forall_app].
Qed.

Lemma appends_weaken (P P' : Call → Prop) s s' :
  (∀ c, P c → P' c) → appends P s s' → appends P' s s'.
Proof. intros HP (delta & Hc & Hall). exists delta. split; [done |]. eapply Forall_impl; eauto. Qed.

Lemma appends_call {A} (P : Call → Prop) (c : Res A → Call) (method : M W A) :
  (∀ r, P (c r)) → steps (appends P) (λ _, True) (call c method).
Proof.
  intros Hc s0. unfold call. destruct (method (world s0)) as [r w]. simpl.
  split; [| done]. exists [c r]. split; [done | by constructor].
Qed.

Lemma appends_logger_Debug (P : Call → Prop) msg fields :
  P (CLog LevelDebug msg fields) →
  steps (appends (W := W) P) (λ _, True) (logger_Debug msg fields).
Proof.
  intros Hc s0. split; [| done]. exists [CLog LevelDebug msg fields]. simpl.
  split; [done | by constructor].
Qed.

Lemma appends_logger_Error (P : Call → Prop) msg fields :
  P (CLog LevelError msg fields) →
  steps (appends (W := W) P) (λ _, True) (logger_Error msg fields).
Proof.
  intros Hc s0. split; [| done]. exists [CLog LevelError msg fields]. simpl.
  split; [done | by constructor].
Qed.

Lemma trace_of_app {A} (m : M (BState W) A) s delta :
  calls (m s).2 = calls s ++ delta → trace_of m s = delta.
Proof. intros Hc. unfold trace_of. rewrite Hc. apply drop_app_length. Qed.

(** Past its guards, [BlockChanged] is its loop. *)
Lemma BlockChanged_loop b evt blk s :
  range_faithful hp → passes_guards evt blk →
  BlockChanged b evt s
  = (let* merr := for_fold (map_range (extractMentions (notify.BlockChanged evt)))
                    merror_New (mention_loop_body b evt blk) in
     ret (ErrorOrNil merr)) s.
Proof.
  intros Hrange (Hboard & Hcard & Haction & Hblk & Htype). unfold BlockChanged.
  rewrite !bool_decide_eq_false_2 by done. simpl. rewrite Hblk. unfold bind at 1. simpl.
  assert (∀ k : M (BState W) (option merror),
    (if bool_decide (size (mentionTokens (model.Block_Title blk)) = 0) then ret None else k) s
    = k s →
    match model.Block_Type blk with
    | model.TypeOther => ret None
    | _ => if bool_decide (size (mentionTokens (model.Block_Title blk)) = 0)
           then ret None else k
    end s = k s) as Hty.
  { intros k Hk. by destruct (model.Block_Type blk). }
  etrans; [apply Hty | reflexivity].
  case_bool_decide as Hsize; [| done].
  apply size_empty_inv, leibniz_equiv in Hsize. rewrite Hsize.
  pose proof (Hrange ∅) as Hperm. rewrite elements_empty in Hperm.
  apply Permutation_nil_r in Hperm. rewrite Hperm. reflexivity.
Qed.

(** ** The guards of [BlockChanged] *)

(** C9: when the board or the card is absent, the action is a delete, or the
    changed block is not a text, comment or image block, [BlockChanged]
    returns nil and leaves the state as it found it: the world is untouched
    and no call is logged (no store access, no delivery, no broadcast, no
    listener). *)
Theorem BlockChanged_guard_noop b evt s :
  notify.Board evt = None ∨ notify.Card evt = None ∨ notify.Action_ evt = notify.Delete
  ∨ (∃ blk, notify.BlockChanged evt = Some blk ∧ model.Block_Type blk = model.TypeOther) →
  BlockChanged b evt s = (Ret None, s).
Proof.
  intros Hguard. unfold BlockChanged.
  destruct Hguard as [H | [H | [H | (blk & H & Hk)]]].
  - rewrite H. reflexivity.
  - rewrite H. rewrite orb_true_r. reflexivity.
  - rewrite H. case_bool_decide; simpl; [reflexivity |].
    case_bool_decide; simpl; reflexivity.
  - rewrite H. repeat (case_bool_decide; simpl; try reflexivity).
    all: unfold bind; simpl; rewrite ?Hk; reflexivity.
Qed.

(** ** Authorization in [deliverMentionNotification] *)

(** C6: a viewer-only actor (viewer bit set, no admin, editor or commenter
    bit) mentioning a user that resolves gets a permission error, on an open
    board and on a private one alike; the only call made is the user
    lookup, so nothing is delivered and no membership is read or written. *)
Theorem viewer_mention_denied b username extract evt s board modifiedBy user w1 :
  notify.Board evt = Some board →
  notify.ModifiedBy evt = Some modifiedBy →
  model.SchemeViewer modifiedBy = true →
  is_actor_role modifiedBy = false →
  UserByUsername (delivery b) username (world s) = (Ret (Some user, None), w1) →
  ∃ err,
    deliverMentionNotification b username extract evt s
    = (Ret ("", Some err),
       {| world := w1;
          calls := calls s ++ [CUserByUsername username (Ret (Some user, None))] |})
    ∧ errors_Is err ErrMentionPermission = true.
Proof.
  intros Hboard Hactor Hviewer Hrole Huser.
  unfold deliverMentionNotification, bind, call.
  rewrite Huser, Hactor, Hboard. simpl.
  fold (is_actor_role modifiedBy). rewrite Hrole, Hviewer.
  destruct (decide _); simpl; eexists; split; reflexivity.
Qed.

(** Without an acting user, an attempt makes the user lookup and nothing
    else, and hands back no user id. *)
Lemma deliver_without_actor_steps b username extract evt :
  notify.ModifiedBy evt = None →
  steps (appends is_user_lookup) (λ r, r.1 = "")
    (deliverMentionNotification b username extract evt).
Proof.
  intros Hactor s0. unfold deliverMentionNotification, bind, call. rewrite Hactor.
  destruct (UserByUsername (delivery b) username (world s0)) as [[[mu [err |]] | p] w1]; simpl.
  - destruct (Delivery_IsErrNotFound (delivery b) (Some err)); simpl.
    all: split; [eexists [_]; split; [reflexivity | by repeat constructor] |].
    all: by intros ? [= <-].
  - split; [eexists [_]; split; [reflexivity | by repeat constructor] |]. by intros ? [= <-].
  - split; [eexists [_]; split; [reflexivity | by repeat constructor] | done].
Qed.

(** C7: when the event carries no acting user, a mention whose username
    lookup succeeded is refused with a permission error before any other
    call; and over a whole [BlockChanged] call nothing but user lookups is
    ever logged, so no mention is delivered, no listener is told and no
    membership is touched. *)
Theorem missing_actor_denied b evt :
  notify.ModifiedBy evt = None →
  (∀ username extract s user w1,
     UserByUsername (delivery b) username (world s) = (Ret (user, None), w1) →
     ∃ err,
       deliverMentionNotification b username extract evt s
       = (Ret ("", Some err),
          {| world := w1; calls := calls s ++ [CUserByUsername username (Ret (user, None))] |})
       ∧ errors_Is err ErrMentionPermission = true)
  ∧ (∀ s, ∃ delta,
       calls (BlockChanged b evt s).2 = calls s ++ delta ∧ Forall is_user_lookup delta).
Proof.
  intros Hactor. split.
  - intros username extract s user w1 Huser.
    unfold deliverMentionNotification, bind, call. rewrite Huser, Hactor. simpl.
    eexists. split; reflexivity.
  - intros s.
    cut (steps (appends is_user_lookup) (λ _, True) (BlockChanged b evt)).
    { intros Hr. apply (Hr s). }
    unfold BlockChanged.
    destruct (_ || _); [by step_ret |].
    destruct (bool_decide (notify.Action_ evt = _)); [by step_ret |].
    eapply steps_bind; [apply _ | apply steps_deref; [apply _ | intros; exact I] |].
    intros blk _.
    destruct (model.Block_Type blk); try by step_ret.
    all: destruct (bool_decide (size _ = 0)); [by step_ret |].
    all: eapply steps_bind; [apply _ | | intros; by step_ret].
    all: apply steps_for_fold; [apply _ |]; intros acc username _.
    all: destruct (bool_decide (username ∈ _)); [by step_ret |].
    all: eapply steps_bind; [apply _ | by apply deliver_without_actor_steps |].
    all: intros [userID err] Hid; simpl in Hid; subst userID; simpl.
    all: by step_ret.
Qed.

(** C2 (amended): on an open board with an admin, editor or commenter
    actor, the team check is made for the mentioned user: the call is
    [HasPermissionToTeam(mentionedUser.Id, evt.TeamID, PermissionViewTeam)].
    When it answers false the attempt ends with a permission error; the log
    holds the user lookup and that check only, so nothing is delivered and
    no membership is read or written. *)
Theorem team_check_on_mentioned_user b username extract evt s board modifiedBy user w1 w2 :
  notify.Board evt = Some board →
  model.Board_Type board = model.BoardTypeOpen →
  notify.ModifiedBy evt = Some modifiedBy →
  is_actor_role modifiedBy = true →
  UserByUsername (delivery b) username (world s) = (Ret (Some user, None), w1) →
  HasPermissionToTeam (permissions b) (mm_model.User_Id user) (notify.TeamID evt)
    model.PermissionViewTeam w1 = (Ret false, w2) →
  ∃ err,
    deliverMentionNotification b username extract evt s
    = (Ret ("", Some err),
       {| world := w2;
          calls := calls s ++
            [CUserByUsername username (Ret (Some user, None));
             CHasPermissionToTeam (mm_model.User_Id user) (notify.TeamID evt)
               model.PermissionViewTeam (Ret false)] |})
    ∧ errors_Is err ErrMentionPermission = true.
Proof.
  intros Hboard Hopen Hactor Hrole Huser Hteam.
  unfold deliverMentionNotification, bind, call.
  rewrite Huser, Hactor, Hboard. simpl.
  fold (is_actor_role modifiedBy). rewrite Hrole.
  destruct (decide _) as [_ | Hne]; [| done]. simpl.
  rewrite Hteam. simpl. rewrite <- app_assoc. simpl.
  eexists. split; reflexivity.
Qed.

(** C10: on an open board with an admin, editor or commenter actor, a
    membership lookup that comes back with a nil member goes on to
    [SaveMember], whatever error came with it (NotFound or not).  The value
    returned is decided by [SaveMember], the broadcast and the delivery
    alone; the lookup's error is in the log entry of the lookup and nowhere
    in the result. *)
Theorem nil_member_lookup_proceeds_to_save
    b username extract evt s board modifiedBy user w1 w2 w3 lookupErr :
  notify.Board evt = Some board →
  model.Board_Type board = model.BoardTypeOpen →
  notify.ModifiedBy evt = Some modifiedBy →
  is_actor_role modifiedBy = true →
  UserByUsername (delivery b) username (world s) = (Ret (Some user, None), w1) →
  HasPermissionToTeam (permissions b) (mm_model.User_Id user) (notify.TeamID evt)
    model.PermissionViewTeam w1 = (Ret true, w2) →
  GetMemberForBoard (store b) (model.Board_ID board) (mm_model.User_Id user) w2
    = (Ret (None, lookupErr), w3) →
  let newBoardMember := new_editor (model.Board_ID board) (mm_model.User_Id user) in
  (∃ rest,
     trace_of (deliverMentionNotification b username extract evt) s
     = [CUserByUsername username (Ret (Some user, None));
        CHasPermissionToTeam (mm_model.User_Id user) (notify.TeamID evt)
          model.PermissionViewTeam (Ret true);
        CGetMemberForBoard (model.Board_ID board) (mm_model.User_Id user)
          (Ret (None, lookupErr));
        CSaveMember newBoardMember (SaveMember (store b) newBoardMember w3).1] ++ rest)
  ∧ (deliverMentionNotification b username extract evt s).1
    = match SaveMember (store b) newBoardMember w3 with
      | (Panic p, _) => Panic p
      | (Ret (_, Some err), _) =>
        Ret ("", Some (Errorf ("cannot add mentioned user " +:+ mm_model.User_Id user
                                 +:+ " to board " +:+ model.Board_ID board) err))
      | (Ret (member, None), w4) =>
        match BroadcastMemberChange (wsAdapter b) (notify.TeamID evt) (model.Board_ID board)
                member w4 with
        | (Panic p, _) => Panic p
        | (Ret _, w5) => (MentionDeliver (delivery b) (Some user) extract evt w5).1
        end
      end.
Proof.
  intros Hboard Hopen Hactor Hrole Huser Hteam Hget newBoardMember.
  unfold trace_of, deliverMentionNotification, bind, call.
  rewrite Huser, Hactor, Hboard. simpl.
  fold (is_actor_role modifiedBy). rewrite Hrole.
  destruct (decide _) as [_ | Hne]; [| done]. simpl.
  rewrite Hteam. simpl. rewrite Hget. simpl.
  fold (new_editor (model.Board_ID board) (mm_model.User_Id user)). fold newBoardMember.
  destruct (SaveMember (store b) newBoardMember w3) as [[[member [err |]] | p] w4]; simpl.
  - split; [| done]. exists []. by rewrite <- !app_assoc, drop_app_length.
  - destruct (BroadcastMemberChange _ _ _ _ w4) as [[[] | p] w5]; simpl.
    + destruct (MentionDeliver _ _ _ _ w5) as [r w6]; simpl.
      split; [| done]. eexists. by rewrite <- !app_assoc, drop_app_length.
    + split; [| done]. eexists. by rewrite <- !app_assoc, drop_app_length.
  - split; [| done]. exists []. by rewrite <- !app_assoc, drop_app_length.
Qed.

(** ** Mentions that were already there *)

Ltac appends_leaf :=
  first
    [ apply appends_logger_Debug
    | apply appends_logger_Error
    | apply appends_call; intros ].

(** An attempt logs the lookup of its username, and calls of other kinds. *)
Lemma deliver_appends (P : Call → Prop) b username extract evt :
  (∀ r, P (CUserByUsername username r)) →
  (∀ c, ¬ is_user_lookup c → P c) →
  steps (appends P) (λ _, True) (deliverMentionNotification b username extract evt).
Proof.
  intros Hlookup Hother. unfold deliverMentionNotification. cbv zeta.
  steps_walk never_stop ltac:(appends_leaf; first [apply Hlookup | apply Hother; simpl; tauto]).
Qed.

(** The first call of an attempt is the lookup of its username. *)
Lemma deliver_starts_with_lookup b username extract evt s :
  ∃ r rest,
    trace_of (deliverMentionNotification b username extract evt) s
    = CUserByUsername username r :: rest.
Proof.
  unfold trace_of, deliverMentionNotification, bind at 1, call at 1.
  destruct (UserByUsername (delivery b) username (world s)) as [[[mu err] | p] w1]; simpl.
  2: { eexists _, []. by rewrite drop_app_length. }
  match goal with |- context [calls (?m ?s1).2] =>
    cut (steps (appends (λ _, True)) (λ _, True) m);
      [intros Hm; destruct (proj1 (Hm s1)) as (rest & Hc & _) |]
  end.
  - rewrite Hc. simpl. rewrite <- app_assoc, drop_app_length. by eexists _, _.
  - cbv zeta. steps_walk never_stop ltac:(appends_leaf; exact I).
Qed.

(** C5: a username found in the old text of the block is never looked up
    by [BlockChanged], and the lookup is where every attempt (authorization
    and delivery alike) starts; when the old block has the same text as the
    changed one, [BlockChanged] returns nil and leaves the state as it was:
    no call at all. *)
Theorem old_mentions_not_attempted b evt :
  (∀ username s r,
     username ∈ extractMentions (notify.BlockOld evt) →
     CUserByUsername username r ∉ trace_of (BlockChanged b evt) s)
  ∧ (∀ username extract s, ∃ r rest,
       trace_of (deliverMentionNotification b username extract evt) s
       = CUserByUsername username r :: rest)
  ∧ (∀ old blk s,
       range_faithful hp →
       notify.BlockOld evt = Some old → notify.BlockChanged evt = Some blk →
       model.Block_Title old = model.Block_Title blk →
       BlockChanged b evt s = (Ret None, s)).
Proof.
  split; [| split].
  - intros username s r Hold Hin.
    set (P := λ c, match c with
                   | CUserByUsername u _ => u ∉ extractMentions (notify.BlockOld evt)
                   | _ => True
                   end).
    assert (steps (appends P) (λ _, True) (BlockChanged b evt)) as Hsteps.
    { unfold BlockChanged. cbv zeta.
      steps_walk never_stop
        ltac:(first [ apply deliver_appends;
                      [ intros; simpl;
                        match goal with
                        | H : bool_decide _ = false |- _ =>
                          by apply bool_decide_eq_false in H
                        end
                      | by intros [] ]
                    | appends_leaf; exact I ]). }
    destruct (proj1 (Hsteps s)) as (delta & Hc & Hall).
    rewrite (trace_of_app _ _ _ Hc) in Hin.
    rewrite Forall_forall in Hall. by apply (Hall _ Hin).
  - intros username extract s. apply deliver_starts_with_lookup.
  - intros old blk s Hrange Hold Hblk Htitle. unfold BlockChanged.
    destruct (_ || _); [done |]. destruct (bool_decide (notify.Action_ evt = _)); [done |].
    rewrite Hblk. unfold bind at 1. simpl.
    assert (∀ (l : list string) merr s0,
      (∀ u, u ∈ l → u ∈ extractMentions (notify.BlockOld evt)) →
      for_fold l merr (mention_loop_body b evt blk) s0 = (Ret merr, s0)) as Hloop.
    { intros l merr s0. induction l as [| u l IH]; intros Hl; [done |].
      simpl. unfold bind, mention_loop_body at 1.
      rewrite bool_decide_eq_true_2 by (apply Hl; left). simpl.
      apply IH. intros v Hv. apply Hl. by right. }
    assert ((let* merr := for_fold (map_range (mentionTokens (model.Block_Title blk)))
                            merror_New (mention_loop_body b evt blk) in
             ret (ErrorOrNil merr)) s = (Ret None, s)) as Hrun.
    { unfold bind. rewrite Hloop; [done |].
      intros u Hu. rewrite Hold. simpl. rewrite Htitle.
      rewrite (Hrange _) in Hu. by apply elem_of_elements in Hu. }
    destruct (model.Block_Type blk); try done.
    all: destruct (bool_decide (size _ = 0)); [done | exact Hrun].
Qed.

(** [BlockChanged] only appends to the log. *)
Lemma BlockChanged_appends b evt :
  steps (appends (λ _, True)) (λ _, True) (BlockChanged b evt).
Proof.
  unfold BlockChanged. cbv zeta.
  steps_walk never_stop
    ltac:(first [ apply deliver_appends; by intros | appends_leaf; exact I ]).
Qed.

(** ** Listener faults *)

Lemma on_mentions_app (l k : list Call) : on_mentions (l ++ k) = on_mentions l ++ on_mentions k.
Proof. apply omap_app. Qed.

Lemma run_alike_ret {A} (a : A) : run_alike (W := W) (ret a) (ret a).
Proof. by intros s0 s0' Hs. Qed.

Lemma run_alike_raise {A} (p : panic) : run_alike (W := W) (A := A) (raise p) (raise p).
Proof. by intros s0 s0' Hs. Qed.

Lemma run_alike_deref {A} (ptr : option A) : run_alike (W := W) (deref ptr) (deref ptr).
Proof. destruct ptr; [apply run_alike_ret | apply run_alike_raise]. Qed.

Lemma run_alike_bind {A B} (m m' : M (BState W) A) (k k' : A → M (BState W) B) :
  run_alike m m' → (∀ a, run_alike (k a) (k' a)) → run_alike (bind m k) (bind m' k').
Proof.
  intros Hm Hk s0 s0' Hs. unfold bind. destruct (Hm s0 s0' Hs) as [Hr Hs1].
  destruct (m s0) as [[a | p] s1], (m' s0') as [[a' | p'] s1']; simplify_eq/=; [| done].
  by apply Hk.
Qed.

Lemma run_alike_call {A} (c : Res A → Call) (method : M W A) :
  run_alike (call c method) (call c method).
Proof.
  intros s0 s0' [Hw Hc]. unfold call. rewrite Hw.
  destruct (method (world s0')) as [r w]. simpl. split; [done |].
  split; [done |]. simpl. by rewrite !on_mentions_app, Hc.
Qed.

Lemma run_alike_logger_Debug msg fields msg' fields' :
  run_alike (W := W) (logger_Debug msg fields) (logger_Debug msg' fields').
Proof.
  intros s0 s0' [Hw Hc]. split; [done |]. split; [done |]. simpl.
  rewrite !on_mentions_app, Hc. simpl. done.
Qed.

Lemma run_alike_for_fold {A B} (xs : list A) (acc : B) (body body' : B → A → M (BState W) B) :
  (∀ acc x, run_alike (body acc x) (body' acc x)) →
  run_alike (for_fold xs acc body) (for_fold xs acc body').
Proof.
  intros Hbody. revert acc. induction xs as [| x xs IH]; intros acc; simpl.
  - apply run_alike_ret.
  - apply run_alike_bind; [apply Hbody | intros; apply IH].
Qed.

(** One guarded listener call against its calm twin. *)
Lemma safeCallListener_calm (l : MentionListener W) userID evt :
  run_alike (safeCallListener l userID evt) (safeCallListener (calm l) userID evt).
Proof.
  intros s0 s0' [Hw Hc]. unfold safeCallListener, recover, call, logger_Error. simpl.
  rewrite Hw. destruct (OnMention l userID evt (world s0')) as [[[] | p] w]; simpl.
  - split; [done |]. split; [done |]. simpl. by rewrite !on_mentions_app, Hc.
  - split; [done |]. split; [done |]. simpl. rewrite !on_mentions_app, Hc.
    unfold on_mentions. simpl. by rewrite app_nil_r.
Qed.

Lemma fan_out_calm (ls : list (MentionListener W)) userID evt :
  run_alike (for_each ls (λ l, safeCallListener l userID evt))
            (for_each (map calm ls) (λ l, safeCallListener l userID evt)).
Proof.
  induction ls as [| l ls IH]; simpl.
  - apply run_alike_ret.
  - apply run_alike_bind; [apply safeCallListener_calm | intros; apply IH].
Qed.

(** Fan-out returns whatever the listeners do, and calls each of them. *)
Lemma fan_out_calls_all (ls : list (MentionListener W)) userID evt s :
  ∃ s', for_each ls (λ l, safeCallListener l userID evt) s = (Ret tt, s')
        ∧ on_mentions (trace_of (for_each ls (λ l, safeCallListener l userID evt)) s)
          = map (λ l, (listener_id l, userID, evt)) ls.
Proof.
  unfold trace_of.
  cut (∃ s' delta, for_each ls (λ l, safeCallListener l userID evt) s = (Ret tt, s')
                   ∧ calls s' = calls s ++ delta
                   ∧ on_mentions delta = map (λ l, (listener_id l, userID, evt)) ls).
  { intros (s' & delta & Hrun & Hc & Hd). exists s'. rewrite Hrun. simpl.
    by rewrite Hc, drop_app_length. }
  revert s. induction ls as [| l ls IH]; intros s; simpl.
  - exists s, []. by rewrite app_nil_r.
  - unfold bind, safeCallListener at 1, recover, call, logger_Error.
    destruct (OnMention l userID evt (world s)) as [[[] | p] w]; simpl.
    + match goal with |- context [for_each _ _ ?s1] => destruct (IH s1) as (s' & d & Hr & Hc & Hd) end.
      exists s', (COnMention (listener_id l) userID evt (Ret ()) :: d).
      rewrite Hr, Hc. simpl. rewrite <- app_assoc. simpl. by rewrite Hd.
    + match goal with |- context [for_each _ _ ?s1] => destruct (IH s1) as (s' & d & Hr & Hc & Hd) end.
      eexists s', (_ :: _ :: d).
      rewrite Hr, Hc. simpl. rewrite <- !app_assoc. simpl. by rewrite Hd.
Qed.

Ltac alike_walk :=
  lazymatch goal with
  | |- run_alike (ret _) _ => apply run_alike_ret
  | |- run_alike (raise _) _ => apply run_alike_raise
  | |- run_alike (deref _) _ => apply run_alike_deref
  | |- run_alike (bind _ _) _ =>
    apply run_alike_bind; [alike_walk | intros ?; cbv beta; alike_walk]
  | |- run_alike (call _ _) _ => apply run_alike_call
  | |- run_alike (logger_Debug _ _) _ => apply run_alike_logger_Debug
  | |- run_alike (for_fold _ _ _) _ =>
    apply run_alike_for_fold; intros ? ?; cbv beta; alike_walk
  | |- run_alike (for_each _ _) _ => apply fan_out_calm
  | |- run_alike (if ?c then _ else _) _ => destruct c; alike_walk
  | |- run_alike (match ?x with _ => _ end) _ => destruct x; alike_walk
  | |- _ => idtac
  end.

(** C8: a listener that panics is contained.  Fan-out over any snapshot
    returns normally and invokes every listener of the snapshot, in order,
    with the user id and the event, whatever each of them does; and
    [BlockChanged] with faulting listeners returns the same value, leaves
    the same world and makes the same listener invocations as with
    listeners that do the same to the world and never fault. *)
Theorem listener_fault_isolated b evt s :
  (∀ (ls : list (MentionListener W)) userID s0,
     ∃ s', for_each ls (λ l, safeCallListener l userID evt) s0 = (Ret tt, s')
           ∧ on_mentions (trace_of (for_each ls (λ l, safeCallListener l userID evt)) s0)
             = map (λ l, (listener_id l, userID, evt)) ls)
  ∧ (BlockChanged b evt s).1 = (BlockChanged (calm_backend b) evt s).1
  ∧ world (BlockChanged b evt s).2 = world (BlockChanged (calm_backend b) evt s).2
  ∧ on_mentions (trace_of (BlockChanged b evt) s)
    = on_mentions (trace_of (BlockChanged (calm_backend b) evt) s).
Proof.
  split; [intros; apply fan_out_calls_all |].
  assert (run_alike (BlockChanged b evt) (BlockChanged (calm_backend b) evt)) as Halike.
  { unfold BlockChanged, deliverMentionNotification.
    cbn [calm_backend store permissions delivery wsAdapter listeners]. cbv zeta.
    alike_walk. }
  destruct (Halike s s) as (Hret & Hworld & Hcalls); [done |].
  split; [done |]. split; [done |].
  destruct (proj1 (BlockChanged_appends b evt s)) as (d1 & Hc1 & _).
  destruct (proj1 (BlockChanged_appends (calm_backend b) evt s)) as (d2 & Hc2 & _).
  rewrite (trace_of_app _ _ _ Hc1), (trace_of_app _ _ _ Hc2).
  rewrite Hc1, Hc2, !on_mentions_app in Hcalls. by apply app_inv_head in Hcalls.
Qed.

(** ** Delivery failures and fan-out *)

(** When the post cannot be created, the plugin delivery returns the
    mentioned user's id together with the error. *)
Lemma MentionDeliver_id_with_error MakeCardLink formatMessage
    (pd : plugindelivery.PluginDelivery (W := W)) user extract evt
    modifiedBy board card author channel err w w1 w2 w3 :
  notify.ModifiedBy evt = Some modifiedBy →
  notify.Board evt = Some board →
  notify.Card evt = Some card →
  GetUserByID (plugindelivery.api pd) (model.UserID modifiedBy) w
    = (Ret (Some author, None), w1) →
  GetDirectChannel (plugindelivery.api pd) (mm_model.User_Id user) (plugindelivery.botID pd) w1
    = (Ret (Some channel, None), w2) →
  (∀ post, CreatePost (plugindelivery.api pd) post w2 = (Ret (Some err), w3)) →
  plugindelivery.MentionDeliver MakeCardLink formatMessage pd (Some user) extract evt w
  = (Ret (mm_model.User_Id user, Some err), w3).
Proof.
  intros Hactor Hboard Hcard Hauthor Hchannel Hpost.
  unfold plugindelivery.MentionDeliver, bind. rewrite Hactor. simpl. rewrite Hauthor. simpl.
  rewrite Hchannel, Hboard, Hcard. simpl. by rewrite Hpost.
Qed.

(** One iteration of the loop on an attempt that returns a user id and an
    error: the error is recorded and every listener is still called. *)
Lemma failed_attempt_still_fans_out b evt blk merr username userID err s s1 :
  username ∉ extractMentions (notify.BlockOld evt) →
  deliverMentionNotification b username
    (extractText (model.Block_Title blk) username newLimits) evt s
  = (Ret (userID, Some err), s1) →
  userID ≠ "" →
  ∃ s2,
    mention_loop_body b evt blk merr username s
    = (Ret (merr ++ [Errorf ("cannot deliver notification for @" +:+ username) err]), s2)
    ∧ on_mentions (drop (length (calls s1)) (calls s2))
      = map (λ l, (listener_id l, userID, evt)) (listeners b).
Proof.
  intros Hold Hrun Hid. unfold mention_loop_body.
  rewrite bool_decide_eq_false_2 by done. cbv zeta. unfold bind at 1. rewrite Hrun.
  rewrite bool_decide_eq_false_2 by done. unfold bind, logger_Debug. simpl.
  match goal with |- context [for_each ?ls ?f ?s2] =>
    destruct (fan_out_calls_all ls userID evt s2) as (s3 & Hfan & Hcalls)
  end.
  rewrite Hfan. simpl. exists s3. split; [done |].
  unfold trace_of in Hcalls. rewrite Hfan in Hcalls. simpl in Hcalls.
  rewrite length_app in Hcalls. simpl in Hcalls.
  destruct (proj1 (steps_for_each (appends (λ _, True)) (listeners b)
                     (λ l, safeCallListener l userID evt)
                     (λ l _, ltac:(unfold safeCallListener;
                                   steps_walk never_stop ltac:(appends_leaf; exact I)))
                     {| world := world s1;
                        calls := calls s1 ++
                          [CLog LevelDebug "Mention notification delivered"
                             [FString "user" username;
                              FInt "listener_count" (length (listeners b))]] |}))
    as (delta & Hc & _).
  rewrite Hfan in Hc. simpl in Hc. rewrite Hc in Hcalls |- *.
  rewrite <- app_assoc, drop_app_length. simpl.
  rewrite <- (drop_drop _ 1 (length (calls s1))) in Hcalls.
  by rewrite <- app_assoc, drop_app_length in Hcalls.
Qed.

(** ** Auto-enrolment *)




End Properties.

(** * The properties on concrete events *)

(** The viewer rule at a concrete event: a viewer on a private board. *)
Lemma viewer_mention_denied_witness :
  ∃ err,
    deliverMentionNotification (Sample.backend []) "alice" "@alice hi"
      (Sample.event Sample.board2 (Some Sample.bob_viewer)
         None "@alice hi")
      (Sample.start Sample.world0)
    = (Ret ("", Some err),
       {| world := Sample.world0;
          calls := [CUserByUsername "alice" (Ret (Some Sample.alice, None))] |})
    ∧ errors_Is err ErrMentionPermission = true.
Proof.
  apply (viewer_mention_denied (Sample.backend []) "alice" "@alice hi" _
           (Sample.start Sample.world0) Sample.board2
           Sample.bob_viewer Sample.alice Sample.world0);
    reflexivity.
Defined.

(** The missing-actor rule at a concrete event. *)
Lemma missing_actor_denied_witness :
  (∀ username extract s user w1,
     UserByUsername Sample.sample_delivery username (world s) = (Ret (user, None), w1) →
     ∃ err,
       deliverMentionNotification (Sample.backend [Sample.recorder 1]) username extract
         (Sample.event Sample.board1 None None "@alice hi") s
       = (Ret ("", Some err),
          {| world := w1; calls := calls s ++ [CUserByUsername username (Ret (user, None))] |})
       ∧ errors_Is err ErrMentionPermission = true)
  ∧ (∀ s, ∃ delta,
       calls (Sample.BlockChanged (Sample.backend [Sample.recorder 1])
                (Sample.event Sample.board1 None None "@alice hi") s).2
       = calls s ++ delta ∧ Forall is_user_lookup delta).
Proof.
  apply (missing_actor_denied (hp := Sample.helpers) (Sample.backend [Sample.recorder 1])
           (Sample.event Sample.board1 None None "@alice hi")).
  reflexivity.
Defined.

(** C2 as first stated, with the check made for the acting user, fails:
    carol, an editor who is not on the team, mentions alice, who is; the
    acting user has no team permission and the mention is delivered. *)
Lemma team_check_on_actor_counterexample :
  ¬ ((HasPermissionToTeam Sample.sample_permissions "u-carol" "team1"
        model.PermissionViewTeam Sample.world0).1 = Ret false →
     ∃ err,
       (deliverMentionNotification (Sample.backend []) "alice" "@alice hi"
          (Sample.event Sample.board1 (Some Sample.carol_editor) None "@alice hi")
          (Sample.start Sample.world0)).1 = Ret ("", Some err)
       ∧ errors_Is err ErrMentionPermission = true).
Proof.
  intros Hclaim. destruct Hclaim as (err & Hret & _); [reflexivity |].
  vm_compute in Hret. discriminate Hret.
Qed.

(** The amended team check at a concrete event: bob, an editor, mentions
    carol, who is not on the team. *)
Lemma team_check_on_mentioned_user_witness :
  ∃ err,
    deliverMentionNotification (Sample.backend []) "carol" "@carol hi"
      (Sample.event Sample.board1 (Some Sample.bob_editor) None "@carol hi")
      (Sample.start Sample.world0)
    = (Ret ("", Some err),
       {| world := Sample.world0;
          calls :=
            [CUserByUsername "carol" (Ret (Some Sample.carol, None));
             CHasPermissionToTeam "u-carol" "team1" model.PermissionViewTeam (Ret false)] |})
    ∧ errors_Is err ErrMentionPermission = true.
Proof.
  apply (team_check_on_mentioned_user (Sample.backend []) "carol" "@carol hi"
           (Sample.event Sample.board1 (Some Sample.bob_editor) None "@carol hi")
           (Sample.start Sample.world0) Sample.board1 Sample.bob_editor Sample.carol
           Sample.world0 Sample.world0); reflexivity.
Defined.

(** The guards at a concrete event: a change to a block that is neither
    text, comment nor image. *)
Lemma BlockChanged_guard_noop_witness :
  Sample.BlockChanged (Sample.backend [Sample.recorder 1])
    {| notify.Action_ := notify.Update; notify.TeamID := "team1";
       notify.Board := Some Sample.board1; notify.Card := Some Sample.card1;
       notify.BlockChanged := Some Sample.card1; notify.BlockOld := None;
       notify.ModifiedBy := Some Sample.bob_editor |}
    (Sample.start Sample.world0)
  = (Ret None, Sample.start Sample.world0).
Proof.
  apply (BlockChanged_guard_noop (hp := Sample.helpers)).
  right. right. right. exists Sample.card1. split; reflexivity.
Defined.

(** An edit that keeps the text: alice was mentioned before and still is. *)
Lemma old_mentions_not_attempted_witness :
  (∀ r, CUserByUsername "alice" r
        ∉ trace_of (Sample.BlockChanged (Sample.backend [Sample.recorder 1])
                      (Sample.event Sample.board1 (Some Sample.bob_editor)
                         (Some "@alice hi") "@alice hi"))
            (Sample.start Sample.world0))
  ∧ Sample.BlockChanged (Sample.backend [Sample.recorder 1])
      (Sample.event Sample.board1 (Some Sample.bob_editor) (Some "@alice hi") "@alice hi")
      (Sample.start Sample.world0)
    = (Ret None, Sample.start Sample.world0).
Proof.
  split.
  - intros r.
    apply (proj1 (old_mentions_not_attempted (hp := Sample.helpers)
                    (Sample.backend [Sample.recorder 1])
                    (Sample.event Sample.board1 (Some Sample.bob_editor)
                       (Some "@alice hi") "@alice hi"))).
    apply (bool_decide_unpack _). vm_compute. exact I.
  - apply (proj2 (proj2 (old_mentions_not_attempted (hp := Sample.helpers)
                           (Sample.backend [Sample.recorder 1])
                           (Sample.event Sample.board1 (Some Sample.bob_editor)
                              (Some "@alice hi") "@alice hi")))
             (Sample.text_block "block1" "@alice hi") (Sample.text_block "block1" "@alice hi")).
    + intros s. reflexivity.
    + reflexivity.
    + reflexivity.
    + reflexivity.
Defined.

(** A lookup that fails with a store error still goes on to [SaveMember]. *)
Lemma nil_member_lookup_proceeds_to_save_witness :
  (∃ rest,
     trace_of (deliverMentionNotification
                 (Sample.backend_with Sample.broken_lookup_store []) "alice" "@alice hi"
                 (Sample.event Sample.board1 (Some Sample.bob_editor) None "@alice hi"))
       (Sample.start Sample.world0)
     = [CUserByUsername "alice" (Ret (Some Sample.alice, None));
        CHasPermissionToTeam "u-alice" "team1" model.PermissionViewTeam (Ret true);
        CGetMemberForBoard "board1" "u-alice"
          (Ret (None, Some (ErrExternal "connection reset")));
        CSaveMember (new_editor "board1" "u-alice")
          (Ret (Some (new_editor "board1" "u-alice"), None))] ++ rest)
  ∧ (deliverMentionNotification
       (Sample.backend_with Sample.broken_lookup_store []) "alice" "@alice hi"
       (Sample.event Sample.board1 (Some Sample.bob_editor) None "@alice hi")
       (Sample.start Sample.world0)).1
    = Ret ("u-alice", None).
Proof.
  apply (nil_member_lookup_proceeds_to_save
           (Sample.backend_with Sample.broken_lookup_store []) "alice" "@alice hi"
           (Sample.event Sample.board1 (Some Sample.bob_editor) None "@alice hi")
           (Sample.start Sample.world0) Sample.board1 Sample.bob_editor Sample.alice
           Sample.world0 Sample.world0 Sample.world0 (Some (ErrExternal "connection reset")));
    reflexivity.
Defined.

(** ** A failed delivery that still reaches the listeners *)

(** C1, at the input where the code departs from it: the transport is down,
    so [MentionDeliver] returns alice's id together with the error of
    [CreatePost]; [BlockChanged] records the error and, because the id is
    not empty, still calls both listeners.  No post was created. *)
Theorem fan_out_after_failed_delivery :
  (Sample.BlockChanged (Sample.backend [Sample.recorder 1; Sample.recorder 2])
     (Sample.event Sample.board1 (Some Sample.bob_editor) None "@alice please review")
     (Sample.start Sample.world_down)).1
  = Ret (Some [Errorf "cannot deliver notification for @alice"
                 (ErrExternal "cannot create post")])
  ∧ List.filter is_delivery
      (calls (Sample.BlockChanged (Sample.backend [Sample.recorder 1; Sample.recorder 2])
                (Sample.event Sample.board1 (Some Sample.bob_editor) None
                   "@alice please review")
                (Sample.start Sample.world_down)).2)
    = [CMentionDeliver (Some Sample.alice) "@alice please review"
         (Sample.event Sample.board1 (Some Sample.bob_editor) None "@alice please review")
         (Ret ("u-alice", Some (ErrExternal "cannot create post")))]
  ∧ on_mentions
      (calls (Sample.BlockChanged (Sample.backend [Sample.recorder 1; Sample.recorder 2])
                (Sample.event Sample.board1 (Some Sample.bob_editor) None
                   "@alice please review")
                (Sample.start Sample.world_down)).2)
    = [(1, "u-alice",
        Sample.event Sample.board1 (Some Sample.bob_editor) None "@alice please review");
       (2, "u-alice",
        Sample.event Sample.board1 (Some Sample.bob_editor) None "@alice please review")]
  ∧ Sample.posts
      (ext (world (Sample.BlockChanged (Sample.backend [Sample.recorder 1; Sample.recorder 2])
                     (Sample.event Sample.board1 (Some Sample.bob_editor) None
                        "@alice please review")
                     (Sample.start Sample.world_down)).2))
    = [].
Proof. vm_compute. repeat split. Qed.

(** Five listeners, the third of which faults: all five are invoked, and
    the call returns nil as it does without the fault. *)
Example five_listeners_one_faults :
  (Sample.BlockChanged
     (Sample.backend [Sample.recorder 1; Sample.recorder 2; Sample.faulty 3;
                      Sample.recorder 4; Sample.recorder 5])
     (Sample.event Sample.board1 (Some Sample.bob_editor) None "@alice please review")
     (Sample.start Sample.world0)).1 = Ret None
  ∧ Sample.heard
      (ext (world (Sample.BlockChanged
                     (Sample.backend [Sample.recorder 1; Sample.recorder 2; Sample.faulty 3;
                                      Sample.recorder 4; Sample.recorder 5])
                     (Sample.event Sample.board1 (Some Sample.bob_editor) None
                        "@alice please review")
                     (Sample.start Sample.world0)).2))
    = [(1, "u-alice"); (2, "u-alice"); (3, "u-alice"); (4, "u-alice"); (5, "u-alice")].
Proof. vm_compute. split; reflexivity. Qed.

(** * Further properties of the backend *)

Section Registry.
Context {W : Type}.
Implicit Types (b : @Backend W) (l : MentionListener W) (s : BState W).

Lemma filter_unregistered l (ls : list (MentionListener W)) :
  unregistered l ls → filter (λ x, listener_id x ≠ listener_id l) ls = ls.
Proof.
  induction ls as [| x xs IH]; intros Hfresh; [done |].
  apply Forall_cons in Hfresh as [Hx Hxs].
  rewrite filter_cons. destruct (decide _) as [_ | Hn]; [by rewrite IH | done].
Qed.

(** [RemoveListener] returns, touches nothing but the registry, and logs
    the new size of the registry. *)
Lemma RemoveListener_run b l s :
  ∃ b',
    RemoveListener b l s
    = (Ret b',
       {| world := world s;
          calls := calls s ++ [CLog LevelDebug "Mention listener removed."
                                 [FInt "listener_count" (length (listeners b'))]] |})
    ∧ listeners b' = filter (λ x, listener_id x ≠ listener_id l) (listeners b)
    ∧ store b' = store b ∧ permissions b' = permissions b
    ∧ delivery b' = delivery b ∧ wsAdapter b' = wsAdapter b.
Proof. eexists. split; [reflexivity |]. done. Qed.

Lemma AddListener_run b l s :
  ∃ b',
    AddListener b l s
    = (Ret b',
       {| world := world s;
          calls := calls s ++ [CLog LevelDebug "Mention listener added."
                                 [FInt "listener_count" (length (listeners b'))]] |})
    ∧ listeners b' = listeners b ++ [l]
    ∧ store b' = store b ∧ permissions b' = permissions b
    ∧ delivery b' = delivery b ∧ wsAdapter b' = wsAdapter b.
Proof. eexists. split; [reflexivity |]. done. Qed.

(** X1: after [RemoveListener l] no registration with the identity of [l]
    is left, however many times it had been added; the other listeners
    stay, in their order; and when [l] was not registered the registry is
    what it was. *)
Theorem RemoveListener_removes_every_registration b l s b' s' :
  RemoveListener b l s = (Ret b', s') →
  unregistered l (listeners b')
  ∧ (∀ x, x ∈ listeners b' ↔ x ∈ listeners b ∧ listener_id x ≠ listener_id l)
  ∧ listeners b' `sublist_of` listeners b
  ∧ (unregistered l (listeners b) → listeners b' = listeners b).
Proof.
  intros Hrun. destruct (RemoveListener_run b l s) as (b0 & Hrun0 & Hls & _).
  rewrite Hrun in Hrun0. injection Hrun0 as -> _. rewrite Hls.
  split; [| split; [| split]].
  - apply Forall_forall. intros x Hx. by apply list_elem_of_filter in Hx as [Hx _].
  - intros x. rewrite list_elem_of_filter. tauto.
  - apply sublist_filter.
  - apply filter_unregistered.
Qed.

(** X2: registering a listener and removing it again gives back the
    registry, provided it was not registered before; and one removal takes
    out a listener that was registered twice. *)
Theorem AddListener_RemoveListener_round_trip b l s b1 s1 b2 s2 :
  unregistered l (listeners b) →
  AddListener b l s = (Ret b1, s1) →
  RemoveListener b1 l s1 = (Ret b2, s2) →
  listeners b2 = listeners b
  ∧ world s2 = world s
  ∧ (∀ b3 s3 b4 s4,
       AddListener b1 l s1 = (Ret b3, s3) →
       RemoveListener b3 l s3 = (Ret b4, s4) →
       listeners b4 = listeners b).
Proof.
  intros Hfresh Hadd Hremove.
  pose proof (filter_unregistered l _ Hfresh) as Hkeep.
  assert (filter (λ x, listener_id x ≠ listener_id l) [l] = []) as Hdrop.
  { rewrite filter_cons. destruct (decide _) as [Hn | _]; [done | done]. }
  destruct (AddListener_run b l s) as (b0 & Hrun0 & Hls1 & _).
  rewrite Hadd in Hrun0. injection Hrun0 as -> ->.
  destruct (RemoveListener_run b0 l
              {| world := world s;
                 calls := calls s ++ [CLog LevelDebug "Mention listener added."
                                        [FInt "listener_count" (length (listeners b0))]] |})
    as (b0' & Hrun1 & Hls2 & _).
  rewrite Hremove in Hrun1. injection Hrun1 as -> ->.
  split; [| split; [done |]].
  - by rewrite Hls2, Hls1, filter_app, Hkeep, Hdrop, app_nil_r.
  - intros b3 s3 b4 s4 Hadd2 Hremove2.
    destruct (AddListener_run b0 l
                {| world := world s;
                   calls := calls s ++ [CLog LevelDebug "Mention listener added."
                                          [FInt "listener_count" (length (listeners b0))]] |})
      as (b3' & Hrun3 & Hls3 & _).
    rewrite Hadd2 in Hrun3. injection Hrun3 as -> ->.
    destruct (RemoveListener_run b3' l
                {| world := world s;
                   calls := (calls s ++ [CLog LevelDebug "Mention listener added."
                                           [FInt "listener_count" (length (listeners b0))]])
                            ++ [CLog LevelDebug "Mention listener added."
                                  [FInt "listener_count" (length (listeners b3'))]] |})
      as (b4' & Hrun4 & Hls4 & _).
    rewrite Hremove2 in Hrun4. injection Hrun4 as -> ->.
    by rewrite Hls4, Hls3, Hls1, !filter_app, Hkeep, Hdrop, !app_nil_r.
Qed.

End Registry.

Ltac log_leaf :=
  first
    [ apply appends_logger_Debug
    | apply appends_logger_Error
    | apply appends_call; intros ].

Section Calls.
Context {W : Type} {hp : Helpers}.
Implicit Types (b : @Backend W) (evt : notify.BlockChangeEvent) (s : BState W).

#[local] Existing Instance appends_preorder.

Lemma steps_bind_ret {A B} (R : relation (BState W)) (Q : B → Prop) (a : A)
    (k : A → M (BState W) B) :
  steps R Q (k a) → steps R Q (bind (ret a) k).
Proof. intros Hk s0. apply (Hk s0). Qed.

Lemma steps_bind_raise {A B} (R : relation (BState W)) `{!PreOrder R} (Q : B → Prop)
    (p : panic) (k : A → M (BState W) B) :
  steps R Q (bind (raise p) k).
Proof. intros s0. split; [reflexivity | done]. Qed.

(** X4: an edit that adds no mention does nothing: when every username of
    the changed text is already in the old text (in particular when the
    changed text has none), [BlockChanged] returns nil and leaves the world
    and the log as they were. *)
Theorem no_new_mention_noop b evt blk s :
  range_faithful hp →
  notify.BlockChanged evt = Some blk →
  extractMentions (notify.BlockChanged evt) ⊆ extractMentions (notify.BlockOld evt) →
  BlockChanged b evt s = (Ret None, s).
Proof.
  intros Hrange Hblk Hsub. unfold BlockChanged.
  destruct (_ || _); [done |]. destruct (bool_decide (notify.Action_ evt = _)); [done |].
  rewrite Hblk. unfold bind at 1. simpl.
  assert (∀ (l : list string) merr s0,
    (∀ u, u ∈ l → u ∈ extractMentions (notify.BlockOld evt)) →
    for_fold l merr (mention_loop_body b evt blk) s0 = (Ret merr, s0)) as Hloop.
  { intros l merr s0. induction l as [| u l IH]; intros Hl; [done |].
    simpl. unfold bind, mention_loop_body at 1.
    rewrite bool_decide_eq_true_2 by (apply Hl; left). simpl.
    apply IH. intros v Hv. apply Hl. by right. }
  assert ((let* merr := for_fold (map_range (mentionTokens (model.Block_Title blk)))
                          merror_New (mention_loop_body b evt blk) in
           ret (ErrorOrNil merr)) s = (Ret None, s)) as Hrun.
  { unfold bind. rewrite Hloop; [done |].
    intros u Hu. apply Hsub. rewrite Hblk. simpl.
    rewrite (Hrange _) in Hu. by apply elem_of_elements in Hu. }
  destruct (model.Block_Type blk); try done.
  all: destruct (bool_decide (size _ = 0)); [done | exact Hrun].
Qed.

(** X5: the changed block is read without a nil check: an event that has
    its board and card, is not a delete and carries no changed block makes
    [BlockChanged] panic on the nil dereference, before any call. *)
Theorem nil_changed_block_panics b evt s :
  notify.Board evt ≠ None → notify.Card evt ≠ None →
  notify.Action_ evt ≠ notify.Delete →
  notify.BlockChanged evt = None →
  BlockChanged b evt s = (Panic NilDereference, s).
Proof.
  intros Hboard Hcard Haction Hblk. unfold BlockChanged.
  rewrite !bool_decide_eq_false_2 by done. simpl. by rewrite Hblk.
Qed.

(** Walking an attempt whose actor and board are known. *)
Ltac known_attempt Hactor Hboard :=
  unfold deliverMentionNotification; rewrite ?Hactor, ?Hboard; cbn [deref]; cbv zeta.

Ltac steps_walk_known leaf :=
  lazymatch goal with
  | |- steps _ _ (bind (ret _) _) => apply steps_bind_ret; cbv beta; steps_walk_known leaf
  | |- steps _ _ (bind (raise _) _) => apply steps_bind_raise; apply _
  | |- steps _ _ (ret _) => step_ret; exact I
  | |- steps _ _ (raise _) => apply steps_raise; apply _
  | |- steps _ _ (deref _) => apply steps_deref; [apply _ | intros; exact I]
  | |- steps _ _ (bind _ _) =>
    eapply (steps_bind _ (λ _, True));
      [steps_walk_known leaf | intros ? _; cbv beta; steps_walk_known leaf]
  | |- steps _ _ (recover _ _) =>
    apply steps_recover; [apply _ | steps_walk_known leaf | intros ?; steps_walk_known leaf]
  | |- steps _ _ (for_each _ _) =>
    apply steps_for_each; [apply _ | intros ? ?; cbv beta; steps_walk_known leaf]
  | |- steps _ _ (safeCallListener _ _ _) => unfold safeCallListener; steps_walk_known leaf
  | |- steps _ _ (if ?c then _ else _) => destruct c eqn:?; steps_walk_known leaf
  | |- steps _ _ (match ?x with _ => _ end) => destruct x eqn:?; steps_walk_known leaf
  | |- _ => leaf
  end.

(** An attempt by a guest, by an actor nobody knows, or on a private board
    makes no membership call. *)
Lemma deliver_no_membership_call b username extract evt :
  (∀ board modifiedBy,
     notify.Board evt = Some board → notify.ModifiedBy evt = Some modifiedBy →
     model.Board_Type board ≠ model.BoardTypeOpen ∨ is_actor_role modifiedBy = false) →
  steps (appends (λ c, is_membership_call c = false)) (λ _, True)
    (deliverMentionNotification b username extract evt).
Proof.
  intros Hguest.
  destruct (notify.ModifiedBy evt) as [modifiedBy |] eqn:Hactor.
  2: { unfold deliverMentionNotification. rewrite Hactor.
       steps_walk_known ltac:(log_leaf; by cbv beta). }
  destruct (notify.Board evt) as [board |] eqn:Hboard.
  2: { unfold deliverMentionNotification. rewrite Hactor, Hboard. cbn [deref]. cbv zeta.
       steps_walk_known ltac:(log_leaf; by cbv beta). }
  specialize (Hguest board modifiedBy eq_refl eq_refl).
  unfold deliverMentionNotification. rewrite Hactor, Hboard. cbn [deref]. cbv zeta.
  fold (is_actor_role modifiedBy).
  steps_walk_known ltac:(first [ exfalso; destruct Hguest; congruence
                               | log_leaf; by cbv beta ]).
Qed.

(** X8: auto-enrolment is for admins, editors and commenters of open boards
    only: on a private board, or when the actor holds none of the three
    roles (a guest), or when the event names no actor, a whole
    [BlockChanged] call never looks up, saves or broadcasts a membership. *)
Theorem guests_and_private_boards_never_enrol b evt s :
  (∀ board modifiedBy,
     notify.Board evt = Some board → notify.ModifiedBy evt = Some modifiedBy →
     model.Board_Type board ≠ model.BoardTypeOpen ∨ is_actor_role modifiedBy = false) →
  Forall (λ c, is_membership_call c = false) (trace_of (BlockChanged b evt) s).
Proof.
  intros Hguest.
  assert (steps (appends (λ c, is_membership_call c = false)) (λ _, True) (BlockChanged b evt))
    as Hsteps.
  { unfold BlockChanged. cbv zeta.
    steps_walk never_stop
      ltac:(first [ by apply deliver_no_membership_call | log_leaf; by cbv beta ]). }
  destruct (proj1 (Hsteps s)) as (delta & Hc & Hall).
  by rewrite (trace_of_app _ _ _ Hc).
Qed.

(** An attempt by an actor with the viewer bit, on a private board or
    without a role, logs its user lookup and nothing else. *)
Lemma deliver_viewer_steps b username extract evt board modifiedBy :
  notify.Board evt = Some board → notify.ModifiedBy evt = Some modifiedBy →
  model.SchemeViewer modifiedBy = true →
  model.Board_Type board ≠ model.BoardTypeOpen ∨ is_actor_role modifiedBy = false →
  steps (appends is_user_lookup) (λ r, r.1 = "")
    (deliverMentionNotification b username extract evt).
Proof.
  intros Hboard Hactor Hviewer Hcase s0.
  unfold deliverMentionNotification, bind, call. rewrite Hactor, Hboard. cbn [deref].
  fold (is_actor_role modifiedBy). rewrite Hviewer.
  destruct (UserByUsername (delivery b) username (world s0)) as [[[mu [err |]] | p] w1]; simpl.
  - destruct (Delivery_IsErrNotFound (delivery b) (Some err)); simpl.
    all: split; [eexists [_]; split; [reflexivity | by repeat constructor] |].
    all: by intros ? [= <-].
  - destruct (decide (model.Board_Type board = model.BoardTypeOpen)) as [Hopen | Hne].
    + destruct Hcase as [Hne | Hrole]; [done |]. rewrite Hrole.
      destruct mu as [user |]; simpl.
      * split; [eexists [_]; split; [reflexivity | by repeat constructor] |].
        by intros ? [= <-].
      * split; [eexists [_]; split; [reflexivity | by repeat constructor] | done].
    + destruct mu as [user |]; simpl.
      * split; [eexists [_]; split; [reflexivity | by repeat constructor] |].
        by intros ? [= <-].
      * split; [eexists [_]; split; [reflexivity | by repeat constructor] | done].
  - split; [eexists [_]; split; [reflexivity | by repeat constructor] | done].
Qed.

(** X12: the viewer bit.  On a private board an actor with the viewer bit
    is refused whatever other roles it holds, and so is a viewer without a
    role on an open board: a whole [BlockChanged] call then logs nothing
    but user lookups (no check, no membership call, no delivery, no
    listener).  On an open board a role wins over the viewer bit: an
    attempt whose user lookup succeeds goes on to the team check. *)
Theorem viewer_bit_precedence b evt board modifiedBy :
  notify.Board evt = Some board → notify.ModifiedBy evt = Some modifiedBy →
  model.SchemeViewer modifiedBy = true →
  (model.Board_Type board ≠ model.BoardTypeOpen ∨ is_actor_role modifiedBy = false →
   ∀ s, Forall is_user_lookup (trace_of (BlockChanged b evt) s))
  ∧ (model.Board_Type board = model.BoardTypeOpen → is_actor_role modifiedBy = true →
     ∀ username extract s user w1,
       UserByUsername (delivery b) username (world s) = (Ret (Some user, None), w1) →
       ∃ rest,
         trace_of (deliverMentionNotification b username extract evt) s
         = CUserByUsername username (Ret (Some user, None))
           :: CHasPermissionToTeam (mm_model.User_Id user) (notify.TeamID evt)
                model.PermissionViewTeam
                (HasPermissionToTeam (permissions b) (mm_model.User_Id user)
                   (notify.TeamID evt) model.PermissionViewTeam w1).1
           :: rest).
Proof.
  intros Hboard Hactor Hviewer. split.
  - intros Hcase s.
    assert (steps (appends is_user_lookup) (λ _, True) (BlockChanged b evt)) as Hsteps.
    { unfold BlockChanged.
      destruct (_ || _); [by step_ret |].
      destruct (bool_decide (notify.Action_ evt = _)); [by step_ret |].
      eapply steps_bind; [apply _ | apply steps_deref; [apply _ | intros; exact I] |].
      intros blk _.
      destruct (model.Block_Type blk); try by step_ret.
      all: destruct (bool_decide (size _ = 0)); [by step_ret |].
      all: eapply steps_bind; [apply _ | | intros; by step_ret].
      all: apply steps_for_fold; [apply _ |]; intros acc username _.
      all: destruct (bool_decide (username ∈ _)); [by step_ret |].
      all: eapply steps_bind; [apply _ | by eapply deliver_viewer_steps |].
      all: intros [userID err] Hid; simpl in Hid; subst userID; simpl.
      all: by step_ret. }
    destruct (proj1 (Hsteps s)) as (delta & Hc & Hall).
    by rewrite (trace_of_app _ _ _ Hc).
  - intros Hopen Hrole username extract s user w1 Huser.
    unfold trace_of, deliverMentionNotification, bind, call, logger_Debug.
    rewrite Huser, Hactor, Hboard. simpl.
    fold (is_actor_role modifiedBy). rewrite Hrole.
    destruct (decide _) as [_ | Hne]; [| done]. simpl.
    destruct (HasPermissionToTeam _ _ _ _ w1) as [[ok | p] w2]; simpl.
    2: { eexists []. by rewrite <- app_assoc, drop_app_length. }
    repeat (case_match; simplify_eq/=).
    all: rewrite <- ?app_assoc; simpl; rewrite drop_app_length; by eexists.
Qed.

End Calls.

Section Attempts.
Context {W : Type}.
Implicit Types (b : @Backend W) (evt : notify.BlockChangeEvent) (s : BState W).

Lemma errors_Is_refl (e : error) : errors_Is e e = true.
Proof. destruct e; simpl; rewrite ?bool_decide_eq_true_2 by done; done. Qed.

Lemma errors_Is_Errorf msg (cause target : error) :
  errors_Is cause target = true → errors_Is (Errorf msg cause) target = true.
Proof. intros H. simpl. rewrite H. apply orb_true_r. Qed.

Ltac run_attempt' :=
  unfold trace_of, deliverMentionNotification, bind, call, deref, ret, raise, logger_Debug;
  repeat (case_match; simplify_eq/=; try done);
  rewrite <- ?app_assoc; simpl; rewrite ?drop_app_length.

Ltac at_index n :=
  split; [by apply (list_elem_of_lookup_2 _ n) |];
  split; [reflexivity |];
  simpl; rewrite ?errors_Is_refl, ?orb_true_r; done.

(** What the log of one attempt says about its delivery and its result,
    whatever the collaborators answer. *)
Lemma attempt_facts b username extract evt s :
  let tr := trace_of (deliverMentionNotification b username extract evt) s in
  let r := (deliverMentionNotification b username extract evt s).1 in
  (∀ userID err, r = Ret (userID, err) → userID ≠ "" →
     ∃ user, last tr = Some (CMentionDeliver (Some user) extract evt (Ret (userID, err))))
  ∧ (∀ i mu x e res, tr !! i = Some (CMentionDeliver mu x e res) →
       x = extract ∧ e = evt ∧ res = r ∧ length tr = S i
       ∧ ∃ user modifiedBy board,
           mu = Some user
           ∧ tr !! 0 = Some (CUserByUsername username (Ret (Some user, None)))
           ∧ notify.ModifiedBy evt = Some modifiedBy
           ∧ notify.Board evt = Some board
           ∧ ((model.Board_Type board = model.BoardTypeOpen
               ∧ is_actor_role modifiedBy = true
               ∧ tr !! 1 = Some (CHasPermissionToTeam (mm_model.User_Id user)
                                   (notify.TeamID evt) model.PermissionViewTeam (Ret true)))
              ∨ ((model.Board_Type board ≠ model.BoardTypeOpen
                  ∨ is_actor_role modifiedBy = false)
                 ∧ model.SchemeViewer modifiedBy = false
                 ∧ tr !! 1 = Some (CHasPermissionToBoard (mm_model.User_Id user)
                                     (model.Board_ID board) model.PermissionViewBoard
                                     (Ret true)))))
  ∧ (∀ userID err, r = Ret (userID, Some err) →
       errors_Is err ErrMentionPermission = true
       ∨ ∃ c cause, c ∈ tr ∧ surfaced_error c = Some cause ∧ errors_Is err cause = true).
Proof.
  intros tr r. subst tr r. unfold is_actor_role.
  run_attempt'.
  all: repeat match goal with
              | H : negb ?a = false |- _ => destruct a; [clear H | discriminate H]
              end.
  all: repeat match goal with |- _ ∧ _ => split end.
  all: lazymatch goal with
       | |- ∀ userID err, _ = Ret (userID, err) → _ ≠ "" → _ =>
         intros userID err0 Hr Hne; simplify_eq/=; try done; eexists; reflexivity
       | |- ∀ userID err, _ = Ret (userID, Some err) → _ =>
         intros userID err0 Hr; simplify_eq/=;
         first [ left; reflexivity
               | right; eexists _, _;
                 first [ at_index 0 | at_index 1 | at_index 2 | at_index 3 | at_index 4
                       | at_index 5 | at_index 6 ] ]
       | |- ∀ i mu x e res, _ !! i = Some _ → _ =>
         intros i mu x ev res Hi;
         repeat (destruct i as [| i]; simpl in Hi; try discriminate Hi);
         simplify_eq/=; (split_and!; try done);
         eexists _, _, _; (split_and!; try done);
         solve [ left; split_and!; done
               | right; split_and!; [eauto | done | done] ]
       end.
Qed.

(** X7: a mention is delivered only past a check that said yes.  Whenever
    an attempt calls [MentionDeliver], it does so last and once, for the
    user the lookup returned, with the excerpt and the event it was given,
    and returns what that call returned; the actor is known, and the call
    before the membership handling is a check on the mentioned user that
    returned true: the team check for an admin, editor or commenter on an
    open board, the board check otherwise, and then the actor has no viewer
    bit. *)
Theorem delivery_only_after_passed_check b username extract evt s i mu x e res :
  trace_of (deliverMentionNotification b username extract evt) s !! i
  = Some (CMentionDeliver mu x e res) →
  let tr := trace_of (deliverMentionNotification b username extract evt) s in
  x = extract ∧ e = evt
  ∧ res = (deliverMentionNotification b username extract evt s).1
  ∧ length tr = S i
  ∧ ∃ user modifiedBy board,
      mu = Some user
      ∧ tr !! 0 = Some (CUserByUsername username (Ret (Some user, None)))
      ∧ notify.ModifiedBy evt = Some modifiedBy
      ∧ notify.Board evt = Some board
      ∧ ((model.Board_Type board = model.BoardTypeOpen
          ∧ is_actor_role modifiedBy = true
          ∧ tr !! 1 = Some (CHasPermissionToTeam (mm_model.User_Id user)
                              (notify.TeamID evt) model.PermissionViewTeam (Ret true)))
         ∨ ((model.Board_Type board ≠ model.BoardTypeOpen
             ∨ is_actor_role modifiedBy = false)
            ∧ model.SchemeViewer modifiedBy = false
            ∧ tr !! 1 = Some (CHasPermissionToBoard (mm_model.User_Id user)
                                (model.Board_ID board) model.PermissionViewBoard
                                (Ret true)))).
Proof.
  intros Hi tr. by apply (proj1 (proj2 (attempt_facts b username extract evt s)) i mu x e res).
Qed.


End Attempts.

Section FanOut.
Context {W : Type} {hp : Helpers}.
Implicit Types (b : @Backend W) (evt : notify.BlockChangeEvent) (s : BState W).

#[local] Existing Instance appends_preorder.

Lemma tells_preorder b evt : PreOrder (tells b evt).
Proof.
  split.
  - intros s0. exists []. rewrite app_nil_r. split; [done |].
    intros listener userID e Hin. by apply elem_of_nil in Hin.
  - intros s0 s1 s2 (d1 & Hc1 & Ht1) (d2 & Hc2 & Ht2).
    exists (d1 ++ d2). rewrite Hc2, Hc1, app_assoc. split; [done |].
    intros listener userID e Hin. rewrite on_mentions_app, elem_of_app in Hin.
    destruct Hin as [Hin | Hin].
    + destruct (Ht1 _ _ _ Hin) as (? & ? & ? & user & x & err & Hd).
      repeat split; try done. exists user, x, err. apply elem_of_app. by left.
    + destruct (Ht2 _ _ _ Hin) as (? & ? & ? & user & x & err & Hd).
      repeat split; try done. exists user, x, err. apply elem_of_app. by right.
Qed.

#[local] Existing Instance tells_preorder.

Lemma on_mentions_none (delta : list Call) :
  Forall (λ c, ¬ is_on_mention c) delta → on_mentions delta = [].
Proof.
  induction 1 as [| c delta Hc _ IH]; [done |].
  destruct c; try exact IH. by destruct Hc.
Qed.

(** An attempt calls no listener. *)
Lemma attempt_tells_nobody b username extract evt s :
  ∃ delta,
    calls (deliverMentionNotification b username extract evt s).2 = calls s ++ delta
    ∧ on_mentions delta = [].
Proof.
  assert (steps (appends (λ c, ¬ is_on_mention c)) (λ _, True)
            (deliverMentionNotification b username extract evt)) as Hsteps.
  { unfold deliverMentionNotification. cbv zeta.
    steps_walk never_stop ltac:(log_leaf; cbv beta; simpl; tauto). }
  destruct (proj1 (Hsteps s)) as (delta & Hc & Hall).
  exists delta. split; [done | by apply on_mentions_none].
Qed.

(** One attempt followed by its fan-out. *)
Lemma attempt_then_fan_out_tells b evt username extract (merr : option error → merror)
    msg fields s :
  tells b evt s
    ((let* (userID, err) := deliverMentionNotification b username extract evt in
      if bool_decide (userID = "") then ret (merr err)
      else
        logger_Debug msg fields ;;
        for_each (listeners b) (λ listener, safeCallListener listener userID evt) ;;
        ret (merr err)) s).2.
Proof.
  unfold bind at 1.
  destruct (attempt_tells_nobody b username extract evt s) as (d1 & Hc1 & Hquiet).
  pose proof (proj1 (attempt_facts b username extract evt s)) as Hlast.
  pose proof (trace_of_app _ _ _ Hc1) as Htr. simpl in Hlast. rewrite Htr in Hlast.
  destruct (deliverMentionNotification b username extract evt s) as [[[userID err] | p] s1];
    simpl in *.
  2: { exists d1. split; [done |]. intros ? ? ? Hin. rewrite Hquiet in Hin.
       by apply elem_of_nil in Hin. }
  case_bool_decide as Hid; simpl.
  { exists d1. split; [done |]. intros ? ? ? Hin. rewrite Hquiet in Hin.
    by apply elem_of_nil in Hin. }
  destruct (Hlast userID err eq_refl Hid) as (user & Hdelivered).
  unfold bind, logger_Debug. simpl.
  match goal with |- context [for_each ?ls ?f ?s2] =>
    destruct (fan_out_calls_all ls userID evt s2) as (s3 & Hfan & Hcalls);
    destruct (proj1 (steps_for_each (appends (λ _, True)) ls f
                       (λ l _, ltac:(unfold safeCallListener;
                                     steps_walk never_stop ltac:(log_leaf; exact I))) s2))
      as (d3 & Hc3 & _)
  end.
  rewrite (trace_of_app _ _ _ Hc3) in Hcalls. rewrite Hfan in Hc3 |- *. simpl in *.
  exists (d1 ++ [CLog LevelDebug msg fields] ++ d3).
  split; [by rewrite Hc3, Hc1, <- !app_assoc |].
  intros listener uid e Hin.
  rewrite !on_mentions_app, Hquiet, Hcalls in Hin. simpl in Hin.
  apply list_elem_of_fmap in Hin as (l & [= -> -> ->] & Hl).
  split; [done |]. split; [done |].
  split; [by apply list_elem_of_fmap_2 |].
  exists user, extract, err. apply elem_of_app. left.
  rewrite last_lookup in Hdelivered. by eapply list_elem_of_lookup_2.
Qed.

Lemma BlockChanged_tells b evt :
  steps (tells b evt) (λ _, True) (BlockChanged b evt).
Proof.
  unfold BlockChanged. cbv zeta.
  destruct (_ || _); [by step_ret |].
  destruct (bool_decide (notify.Action_ evt = _)); [by step_ret |].
  eapply steps_bind; [apply _ | apply steps_deref; [apply _ | intros; exact I] |].
  intros blk _.
  destruct (model.Block_Type blk); try by step_ret.
  all: destruct (bool_decide (size _ = 0)); [by step_ret |].
  all: eapply steps_bind; [apply _ | | intros; by step_ret].
  all: apply steps_for_fold; [apply _ |]; intros acc username _.
  all: destruct (bool_decide (username ∈ _)); [by step_ret |].
  all: intros s0; split; [| done].
  all: apply (attempt_then_fan_out_tells b evt username _
                (λ err, match err with
                        | Some err0 =>
                          merror_Append acc
                            (Errorf ("cannot deliver notification for @" +:+ username) err0)
                        | None => acc
                        end)).
Qed.

(** X6: listeners hear only of what a delivery returned.  Every listener
    invocation of a [BlockChanged] call carries the event of the call and a
    user id that is not empty, goes to a listener of the registry, and that
    user id was returned by a [MentionDeliver] call of the same
    [BlockChanged] call. *)
Theorem listeners_told_only_delivered_ids b evt s :
  told_only_delivered b evt (trace_of (BlockChanged b evt) s).
Proof.
  destruct (proj1 (BlockChanged_tells b evt s)) as (delta & Hc & Htold).
  by rewrite (trace_of_app _ _ _ Hc).
Qed.

(** X3: a listener that has been removed is not called any more: after
    [RemoveListener l], no [BlockChanged] call on the new backend invokes a
    listener with the identity of [l]. *)
Theorem removed_listener_not_called b l s0 b' s1 evt s userID e :
  RemoveListener b l s0 = (Ret b', s1) →
  (listener_id l, userID, e) ∉ on_mentions (trace_of (BlockChanged b' evt) s).
Proof.
  intros Hremove Hin.
  destruct (RemoveListener_run b l s0) as (b0 & Hrun & Hls & _).
  rewrite Hremove in Hrun. injection Hrun as -> _.
  destruct (proj1 (BlockChanged_tells b0 evt s)) as (delta & Hc & Htold).
  rewrite (trace_of_app _ _ _ Hc) in Hin.
  destruct (Htold _ _ _ Hin) as (_ & _ & Hreg & _).
  apply list_elem_of_fmap in Hreg as (x & Hid & Hx).
  rewrite Hls in Hx. apply list_elem_of_filter in Hx as [Hne _]. by destruct Hne.
Qed.

End FanOut.

Section Lookups.
Context {W : Type} {hp : Helpers}.
Implicit Types (b : @Backend W) (evt : notify.BlockChangeEvent) (s : BState W).

#[local] Existing Instance appends_preorder.

Lemma lookups_of_app (l k : list Call) : lookups_of (l ++ k) = lookups_of l ++ lookups_of k.
Proof. apply omap_app. Qed.

Lemma lookups_of_none (delta : list Call) :
  Forall (λ c, ¬ is_user_lookup c) delta → lookups_of delta = [].
Proof.
  induction 1 as [| c delta Hc _ IH]; [done |].
  destruct c; try exact IH. by destruct Hc.
Qed.

(** An attempt looks up its username, once. *)
Lemma attempt_lookups b username extract evt s :
  ∃ delta,
    calls (deliverMentionNotification b username extract evt s).2 = calls s ++ delta
    ∧ lookups_of delta = [username].
Proof.
  unfold deliverMentionNotification, bind at 1, call at 1.
  destruct (UserByUsername (delivery b) username (world s)) as [[[mu err] | p] w1]; simpl.
  2: { by eexists [_]. }
  match goal with |- context [calls (?m ?s1).2] =>
    cut (steps (appends (λ c, ¬ is_user_lookup c)) (λ _, True) m);
      [intros Hm; destruct (proj1 (Hm s1)) as (rest & Hc & Hrest) |]
  end.
  - eexists (_ :: rest). rewrite Hc. simpl. rewrite <- app_assoc. split; [done |].
    change (lookups_of (CUserByUsername username (Ret (mu, err)) :: rest))
      with (username :: lookups_of rest).
    by rewrite lookups_of_none.
  - cbv zeta. steps_walk never_stop ltac:(log_leaf; cbv beta; simpl; tauto).
Qed.

(** One iteration of the loop for a username that is new. *)
Lemma loop_body_lookups b evt blk merr username s :
  username ∉ extractMentions (notify.BlockOld evt) →
  ∃ delta,
    calls (mention_loop_body b evt blk merr username s).2 = calls s ++ delta
    ∧ lookups_of delta = [username].
Proof.
  intros Hold. unfold mention_loop_body. rewrite bool_decide_eq_false_2 by done.
  cbv zeta. unfold bind at 1.
  destruct (attempt_lookups b username
              (extractText (model.Block_Title blk) username newLimits) evt s)
    as (d1 & Hc1 & Hl1).
  destruct (deliverMentionNotification _ _ _ _ s) as [[[userID err] | p] s1]; simpl in *.
  2: { by exists d1. }
  match goal with |- context [calls (?m s1).2] =>
    cut (steps (appends (λ c, ¬ is_user_lookup c)) (λ _, True) m);
      [intros Hm; destruct (proj1 (Hm s1)) as (rest & Hc & Hrest) |]
  end.
  - exists (d1 ++ rest). rewrite Hc, Hc1, app_assoc. split; [done |].
    by rewrite lookups_of_app, Hl1, lookups_of_none.
  - steps_walk never_stop ltac:(log_leaf; cbv beta; simpl; tauto).
Qed.

Lemma loop_lookups b evt blk (l : list string) merr s :
  ∃ delta,
    calls (for_fold l merr (mention_loop_body b evt blk) s).2 = calls s ++ delta
    ∧ lookups_of delta
      `prefix_of` List.filter
                    (λ u, negb (bool_decide (u ∈ extractMentions (notify.BlockOld evt)))) l
    ∧ (∀ r, (for_fold l merr (mention_loop_body b evt blk) s).1 = Ret r →
         lookups_of delta
         = List.filter
             (λ u, negb (bool_decide (u ∈ extractMentions (notify.BlockOld evt)))) l).
Proof.
  revert merr s. induction l as [| u l IH]; intros merr s.
  - exists []. simpl. by rewrite app_nil_r.
  - simpl. unfold bind. case_bool_decide as Hold; simpl.
    + unfold mention_loop_body at 1 2 3. rewrite bool_decide_eq_true_2 by done. simpl.
      apply IH.
    + destruct (loop_body_lookups b evt blk merr u s Hold) as (d1 & Hc1 & Hl1).
      destruct (mention_loop_body b evt blk merr u s) as [[merr' | p] s1]; simpl in *.
      * destruct (IH merr' s1) as (d2 & Hc2 & Hpre & Heq).
        exists (d1 ++ d2). rewrite Hc2, Hc1, app_assoc, lookups_of_app, Hl1. simpl.
        split; [done |]. split; [by apply prefix_cons | intros r Hr; by rewrite (Heq r)].
      * exists d1. rewrite Hl1. split; [done |]. split; [| done].
        apply prefix_cons, prefix_nil.
Qed.

Lemma lookups_follow_new_only_aux b evt blk s :
  range_faithful hp → passes_guards evt blk →
  lookups_of (trace_of (BlockChanged b evt) s) `prefix_of` new_only evt
  ∧ (∀ r, (BlockChanged b evt s).1 = Ret r →
       lookups_of (trace_of (BlockChanged b evt) s) = new_only evt).
Proof.
  intros Hrange Hguards. unfold trace_of.
  rewrite (BlockChanged_loop b evt blk s Hrange Hguards). unfold bind.
  destruct (loop_lookups b evt blk (map_range (extractMentions (notify.BlockChanged evt)))
              merror_New s) as (delta & Hc & Hpre & Heq).
  destruct (for_fold _ _ _ s) as [[merr | p] s1]; simpl in *.
  - rewrite Hc, drop_app_length. split; [done |]. intros r _. by apply (Heq merr).
  - rewrite Hc, drop_app_length. split; [done | done].
Qed.

(** X9: the user lookups of a call follow the new-only usernames.  Past the
    guards, the usernames [BlockChanged] looks up are, in loop order, a
    prefix of the usernames that the changed text has and the old text has
    not, each looked up once; when the call returns they are all of them. *)
Theorem lookups_follow_new_only b evt blk s :
  range_faithful hp → passes_guards evt blk →
  lookups_of (trace_of (BlockChanged b evt) s) `prefix_of` new_only evt
  ∧ (∀ r, (BlockChanged b evt s).1 = Ret r →
       lookups_of (trace_of (BlockChanged b evt) s) = new_only evt).
Proof. apply lookups_follow_new_only_aux. Qed.

(** X10: names that are no users are skipped without an error.  When the
    lookup of every new-only username reports NotFound, [BlockChanged]
    returns nil; it has looked up each of those usernames once and made no
    other call, whoever the actor is (even none) and whatever the board. *)
Theorem unknown_names_are_skipped b evt blk s :
  range_faithful hp → passes_guards evt blk →
  (∀ username w, username ∈ new_only evt →
     ∃ user err w',
       UserByUsername (delivery b) username w = (Ret (user, Some err), w')
       ∧ Delivery_IsErrNotFound (delivery b) (Some err) = true) →
  (BlockChanged b evt s).1 = Ret None
  ∧ Forall is_user_lookup (trace_of (BlockChanged b evt) s)
  ∧ lookups_of (trace_of (BlockChanged b evt) s) = new_only evt.
Proof.
  intros Hrange Hguards Hunknown.
  assert (∀ (l : list string) s0,
    (∀ u, u ∈ List.filter
                (λ u, negb (bool_decide (u ∈ extractMentions (notify.BlockOld evt)))) l →
          u ∈ new_only evt) →
    ∃ s' delta,
      for_fold l merror_New (mention_loop_body b evt blk) s0 = (Ret merror_New, s')
      ∧ calls s' = calls s0 ++ delta ∧ Forall is_user_lookup delta) as Hloop.
  { induction l as [| u l IH]; intros s0 Hl.
    - exists s0, []. by rewrite app_nil_r.
    - simpl in *. unfold bind at 1, mention_loop_body at 1.
      case_bool_decide as Hold; simpl in *; [by apply IH |].
      unfold bind at 1, deliverMentionNotification, bind at 1, call.
      destruct (Hunknown u (world s0)) as (user & err & w' & Hrun & Hnf).
      { apply Hl. apply list_elem_of_In. left. done. }
      rewrite Hrun. simpl. rewrite Hnf. simpl.
      match goal with |- context [for_fold l _ _ ?s1] =>
        destruct (IH s1) as (s' & delta & Hfold & Hc & Hall)
      end.
      { intros v Hv. apply Hl. apply list_elem_of_In. right. by apply list_elem_of_In. }
      exists s', (CUserByUsername u (Ret (user, Some err)) :: delta).
      rewrite Hfold, Hc. simpl. rewrite <- app_assoc. split; [done |].
      split; [done |]. by constructor. }
  destruct (Hloop (map_range (extractMentions (notify.BlockChanged evt))) s)
    as (s' & delta & Hfold & Hc & Hall); [done |].
  assert (BlockChanged b evt s = (Ret None, s')) as Hrun.
  { rewrite (BlockChanged_loop b evt blk s Hrange Hguards). unfold bind. by rewrite Hfold. }
  split; [by rewrite Hrun |]. split.
  - unfold trace_of. rewrite Hrun. simpl. by rewrite Hc, drop_app_length.
  - apply (proj2 (lookups_follow_new_only_aux b evt blk s Hrange Hguards) None).
    by rewrite Hrun.
Qed.

End Lookups.

Section PluginDelivery.
Context {W : Type}.
Variable MakeCardLink : string → string → string → string → string.
Variable formatMessage : string → string → string → string → option model.Block → string.
Implicit Types (pd : @plugindelivery.PluginDelivery W) (st : W * list ApiCall).

Local Abbreviation deliver := (plugindelivery.MentionDeliver MakeCardLink formatMessage).

Ltac run_deliver :=
  unfold added_calls, plugindelivery.MentionDeliver, observed_pd, observed, observe, bind,
    deref, ret, raise; simpl;
  repeat first
    [ progress simplify_eq/=
    | match goal with
      | |- context [match ?x with _ => _ end] =>
          lazymatch x with
          | context [match _ with _ => _ end] => fail
          | _ => destruct x eqn:?
          end
      | H : context [match ?x with _ => _ end] |- _ =>
          lazymatch x with
          | context [match _ with _ => _ end] => fail
          | _ => destruct x eqn:?
          end
      end ];
  rewrite ?drop_all, ?drop_app_length, <- ?app_assoc, ?drop_app_length; simpl.

(** Observing the API changes nothing: the run over the wrapped API gives
    the result and the world of the run over the API itself. *)
Lemma observed_run pd mentionedUser extract evt st :
  ((deliver (observed_pd pd) mentionedUser extract evt st).1,
   (deliver (observed_pd pd) mentionedUser extract evt st).2.1)
  = deliver pd mentionedUser extract evt st.1.
Proof. destruct st as [w log]. run_deliver; done. Qed.

(** X13: a post is created at most once, last, and only after both lookups
    succeeded.  If [MentionDeliver] calls [CreatePost] at all, then its API
    calls are exactly: [GetUserByID] of the actor, answered without error;
    [GetDirectChannel] between the mentioned user and the bot, answered
    with a channel and without error; and that one [CreatePost], of a post
    by the bot into that channel. *)
Theorem post_created_only_after_lookups pd mentionedUser extract evt st c :
  c ∈ added_calls (deliver (observed_pd pd) mentionedUser extract evt) st →
  is_create_post c →
  ∃ modifiedBy mentioned author channel board card post r,
    notify.ModifiedBy evt = Some modifiedBy ∧ mentionedUser = Some mentioned
    ∧ notify.Board evt = Some board ∧ notify.Card evt = Some card
    ∧ c = ACreatePost post r
    ∧ added_calls (deliver (observed_pd pd) mentionedUser extract evt) st
      = [AGetUserByID (model.UserID modifiedBy) (Ret (Some author, None));
         AGetDirectChannel (mm_model.User_Id mentioned) (plugindelivery.botID pd)
           (Ret (Some channel, None));
         ACreatePost post r]
    ∧ mm_model.UserId post = plugindelivery.botID pd
    ∧ mm_model.ChannelId post = mm_model.Channel_Id channel
    ∧ mm_model.Message post
      = formatMessage (mm_model.Username author) extract (model.Block_Title card)
          (MakeCardLink (plugindelivery.serverRoot pd) (model.Board_TeamID board)
             (model.Board_ID board) (model.Block_ID card))
          (notify.BlockChanged evt).
Proof.
  destruct st as [w log]. intros Hin Hpost. revert Hin.
  run_deliver; intros Hin;
    repeat (apply elem_of_cons in Hin as [-> | Hin]); try (by destruct Hpost);
    try (by apply elem_of_nil in Hin).
  all: by eexists _, _, _, _, _, _, _, _; split_and!; try done.
Qed.

(** X14: what the two results of [MentionDeliver] say.  A returned id that
    is empty comes with a wrapped lookup error and no post was attempted,
    or is the mentioned user's own (empty) id.  Otherwise the id is the
    mentioned user's and the error is, unchanged, what the one [CreatePost]
    returned: so the error can be non-nil beside a non-empty id, and a nil
    error means the post was created. *)
Theorem MentionDeliver_result pd mentionedUser extract evt st userID err st' :
  deliver (observed_pd pd) mentionedUser extract evt st = (Ret (userID, err), st') →
  (userID = ""
   ∧ (∃ cause, err = Some (Errorf "cannot find user" cause)
               ∨ err = Some (Errorf "cannot get direct channel" cause))
   ∧ Forall (λ c, ¬ is_create_post c)
       (added_calls (deliver (observed_pd pd) mentionedUser extract evt) st))
  ∨ (∃ mentioned post,
       mentionedUser = Some mentioned ∧ userID = mm_model.User_Id mentioned
       ∧ last (added_calls (deliver (observed_pd pd) mentionedUser extract evt) st)
         = Some (ACreatePost post (Ret err))).
Proof.
  destruct st as [w log]. intros Hrun.
  unfold added_calls. rewrite Hrun. revert Hrun.
  run_deliver; intros; simplify_eq/=;
    rewrite ?drop_all, ?drop_app_length, <- ?app_assoc, ?drop_app_length; simpl.
  all: first
    [ right; by eexists _, _
    | left; split_and!; [done | eexists; eauto | repeat constructor; simpl; tauto] ].
Qed.

End PluginDelivery.

Section BoardMembers.
Context {W R : Type}.
Implicit Types (s : sqlstore.SQLStore W R) (db : sqlstore.BaseRunner W R).
Implicit Types (st : W * list (DBCall R)).

Lemma scan_rows_ok s (rows : list R) acc members :
  sqlstore.scan_rows s rows acc = (members, None) →
  ∃ new, members = acc ++ new ∧ Forall2 (λ row member, sqlstore.Scan s row = inl member) rows new.
Proof.
  revert acc. induction rows as [| row rows IH]; intros acc Hscan; simpl in Hscan.
  - simplify_eq. exists []. by rewrite app_nil_r.
  - destruct (sqlstore.Scan s row) as [member | err] eqn:Hrow; [| done].
    destruct (IH _ Hscan) as (new & -> & Hall).
    exists (member :: new). rewrite <- app_assoc. split; [done |]. by constructor.
Qed.

Lemma scan_rows_err s (rows : list R) acc members err :
  sqlstore.scan_rows s rows acc = (members, Some err) →
  members = [] ∧ ∃ row, row ∈ rows ∧ sqlstore.Scan s row = inr err.
Proof.
  revert acc. induction rows as [| row rows IH]; intros acc Hscan; simpl in Hscan; [done |].
  destruct (sqlstore.Scan s row) as [member | e] eqn:Hrow.
  - destruct (IH _ Hscan) as (-> & row' & Hin & Hrow'). split; [done |].
    exists row'. split; [by right | done].
  - simplify_eq. split; [done |]. exists row. split; [by left | done].
Qed.

(** Observing the store changes neither the statements it builds nor the
    way it scans. *)
Lemma observed_store_eqs s :
  sqlstore.getMemberForBoard_query (observed_store s) = sqlstore.getMemberForBoard_query s
  ∧ sqlstore.getMembersForUser_query (observed_store s) = sqlstore.getMembersForUser_query s
  ∧ sqlstore.getMembersForBoard_query (observed_store s)
    = sqlstore.getMembersForBoard_query s
  ∧ sqlstore.addToMembersHistory (observed_store s) = sqlstore.addToMembersHistory s
  ∧ sqlstore.deleteMember_query (observed_store s) = sqlstore.deleteMember_query s.
Proof. done. Qed.

Lemma observed_saveMember_query (MysqlDBType : string) s :
  sqlstore.saveMember_query MysqlDBType (observed_store s)
  = sqlstore.saveMember_query MysqlDBType s.
Proof. done. Qed.

Lemma observed_scan_rows s (rows : list R) acc :
  sqlstore.scan_rows (observed_store s) rows acc = sqlstore.scan_rows s rows acc.
Proof.
  revert acc. induction rows as [| row rows IH]; intros acc; simpl; [done |].
  destruct (sqlstore.Scan s row); [apply IH | done].
Qed.

Ltac in_list :=
  repeat first [apply list_elem_of_here | apply list_elem_of_further].

Ltac run_db :=
  unfold added_calls, sqlstore.saveMember, sqlstore.deleteMember, sqlstore.getMemberForBoard,
    sqlstore.getMembersForUser, sqlstore.getMembersForBoard, sqlstore.boardMembersFromRows;
  cbv zeta;
  repeat match goal with
    | |- context [observed_store ?s] =>
        progress
          rewrite ?(proj1 (observed_store_eqs s)),
            ?(proj1 (proj2 (observed_store_eqs s))),
            ?(proj1 (proj2 (proj2 (observed_store_eqs s)))),
            ?(proj1 (proj2 (proj2 (proj2 (observed_store_eqs s))))),
            ?(proj2 (proj2 (proj2 (proj2 (observed_store_eqs s))))),
            ?observed_saveMember_query
    end;
  unfold observed_db, observed_store, observe, defer, bind, deref, ret, raise; simpl;
  repeat first
    [ progress simplify_eq/=
    | match goal with
      | |- context [sqlstore.scan_rows (sqlstore.mkSQLStore ?a ?b ?c ?d (sqlstore.Scan ?s0))
                      ?rows ?acc] =>
          change (sqlstore.scan_rows (sqlstore.mkSQLStore a b c d (sqlstore.Scan s0)) rows acc)
            with (sqlstore.scan_rows (observed_store s0) rows acc);
          rewrite (observed_scan_rows s0)
      end
    | match goal with
      | |- context [match ?x with _ => _ end] =>
          lazymatch x with
          | context [match _ with _ => _ end] => fail
          | _ => destruct x eqn:?
          end
      | H : context [match ?x with _ => _ end] |- _ =>
          lazymatch x with
          | context [match _ with _ => _ end] => fail
          | _ => destruct x eqn:?
          end
      end ];
  rewrite ?drop_all, <- ?app_assoc, ?drop_app_length; simpl.

(** X15: a member lookup returns a member or an error, never both and never
    neither; and the member it returns is the first row of the cursor, which
    it returns only when every row of the cursor could be scanned. *)
Theorem getMemberForBoard_member_or_error s db boardID userID w member err w' :
  sqlstore.getMemberForBoard s db boardID userID w = (Ret (member, err), w') →
  (is_Some member ↔ err = None)
  ∧ (∀ m, member = Some m →
       ∃ rows row rest w1,
         sqlstore.Query db (sqlstore.getMemberForBoard_query s boardID userID) w
         = (Ret (Some rows, None), w1)
         ∧ sql.pending rows = row :: rest
         ∧ sqlstore.Scan s row = inl m
         ∧ Forall (λ row, ∃ m', sqlstore.Scan s row = inl m') rest)
  ∧ (∀ rows w1,
       sqlstore.Query db (sqlstore.getMemberForBoard_query s boardID userID) w
       = (Ret (Some rows, None), w1) →
       sql.pending rows = [] → member = None ∧ err = Some sql.ErrNoRows).
Proof.
  intros Hrun. revert Hrun. run_db; intros; simplify_eq/=.
  all: split_and!;
    [ (split; [by intros [? ?] | done]) || (split; [done | by eexists])
    | intros; simplify_eq/=
    | intros; simplify_eq/= ].
  all: repeat match goal with
    | H : sqlstore.scan_rows _ (sql.pending _) [] = (_, None) |- _ =>
        apply scan_rows_ok in H as (? & ? & ?); simplify_eq/=
    | H : sqlstore.scan_rows _ (sql.pending _) [] = (_, Some _) |- _ =>
        apply scan_rows_err in H as (? & ? & ? & ?); simplify_eq/=
    | H : Forall2 _ _ [] |- _ => apply Forall2_nil_inv_r in H
    | H : Forall2 _ _ (_ :: _) |- _ =>
        apply Forall2_cons_inv_r in H as (? & ? & ? & ? & ?)
    | H : @eq (list _) ?x [] |- _ => rewrite H in *
    | H : _ ∈ [] |- _ => by apply elem_of_nil in H
    end; simplify_eq/=; try done.
  all: eexists _, _, _, _; split_and!; [done .. |].
  all: match goal with H : Forall2 _ _ _ |- _ =>
         clear -H; induction H; constructor; eauto end.
Qed.

(** X16: every cursor is closed, once.  In each function of this part that
    queries, the cursors closed are exactly the cursors that a [Query]
    without error handed out, whatever happens after: rows that do not
    scan, no rows, or a failing write.  There is at most one, and where one
    was handed out to a lookup, closing it is the last thing the lookup
    does. *)
Theorem cursors_closed_once (MysqlDBType : string) s db boardID userID bm st :
  let lookup := sqlstore.getMemberForBoard (observed_store s) (observed_db db) boardID userID in
  let for_user := sqlstore.getMembersForUser (observed_store s) (observed_db db) userID in
  let for_board := sqlstore.getMembersForBoard (observed_store s) (observed_db db) boardID in
  let save := sqlstore.saveMember MysqlDBType (observed_store s) (observed_db db) bm in
  (closed (added_calls lookup st) = opened (added_calls lookup st)
   ∧ length (opened (added_calls lookup st)) ≤ 1
   ∧ ∀ rows, rows ∈ opened (added_calls lookup st) →
       ∃ r, last (added_calls lookup st) = Some (DCloseRows rows r))
  ∧ (closed (added_calls for_user st) = opened (added_calls for_user st)
     ∧ ∀ rows, rows ∈ opened (added_calls for_user st) →
         ∃ r, last (added_calls for_user st) = Some (DCloseRows rows r))
  ∧ (closed (added_calls for_board st) = opened (added_calls for_board st)
     ∧ ∀ rows, rows ∈ opened (added_calls for_board st) →
         ∃ r, last (added_calls for_board st) = Some (DCloseRows rows r))
  ∧ closed (added_calls save st) = opened (added_calls save st).
Proof.
  destruct st as [w log]. cbv zeta.
  assert (∀ (rows rows' : option (sql.Rows R)) r,
            rows ∈ [rows'] → ∃ r', Some (DCloseRows rows' r) = Some (DCloseRows rows r'))
    as Hone.
  { intros rows rows' r Hin. apply list_elem_of_singleton in Hin as ->. by eexists. }
  split_and!.
  all: run_db; try done; try lia.
  all: try (intros ? Hin; first [by apply elem_of_nil in Hin | by eapply Hone]).
Qed.

(** X17: what [saveMember] writes.  It runs at most two statements: the
    insert into [board_members], then the [created] row of the history.
    The history row is written exactly when the lookup before the insert
    reported [sql.ErrNoRows] and the insert returned no error: never for a
    member that was found.  When the lookup fails in another way nothing is
    written at all. *)
Theorem saveMember_writes (MysqlDBType : string) s db bm st :
  let save :=
    sqlstore.saveMember MysqlDBType (observed_store s) (observed_db db) (Some bm) in
  let lookup :=
    sqlstore.getMemberForBoard (observed_store s) (observed_db db)
      (model.BoardID bm) (model.UserID bm) in
  let insert := sq.Insert (sqlstore.saveMember_query MysqlDBType s bm) in
  let history :=
    sq.Insert (sqlstore.addToMembersHistory s (model.BoardID bm) (model.UserID bm)
                 "created") in
  execs_of (added_calls save st) `prefix_of` [insert; history]
  ∧ (history ∈ execs_of (added_calls save st)
     ↔ (∃ err, (lookup st).1 = Ret (None, Some err) ∧ errors_Is err sql.ErrNoRows = true)
       ∧ ∃ result, DExec insert (Ret (result, None)) ∈ added_calls save st)
  ∧ (∀ member err, (lookup st).1 = Ret (member, Some err) →
       errors_Is err sql.ErrNoRows = false →
       (save st).1 = Ret (None, Some err) ∧ execs_of (added_calls save st) = []).
Proof.
  destruct st as [w log]. cbv zeta.
  set (insert := sq.Insert (sqlstore.saveMember_query MysqlDBType s bm)).
  set (history := sq.Insert (sqlstore.addToMembersHistory s (model.BoardID bm)
                               (model.UserID bm) "created")).
  assert (history ≠ insert) as Hne by (intros [=]).
  split_and!.
  - run_db; fold insert history;
      first [ by apply prefix_nil | by exists [history] | by exists [] | idtac ].
    all: try (by eexists [_; _]).
    all: try (by eexists [_]).
  - run_db; fold insert history.
    all: split;
      [ intros Hin;
        repeat (apply elem_of_cons in Hin as [Heq | Hin]; [by (done || destruct Hne) |]);
        try (by apply elem_of_nil in Hin)
      | intros ((err' & Herr & His) & result & Hin); simplify_eq/=;
        repeat (apply elem_of_cons in Hin as [Heq | Hin]; [simplify_eq/= |]);
        try (by apply elem_of_nil in Hin) ].
    all: repeat match goal with
      | H : negb ?a = false |- _ => apply negb_false_iff in H
      | H : errors_Is _ _ = true, H' : errors_Is _ _ = true → _ |- _ => specialize (H' H)
      end.
    all: try (split; [by eexists | eexists; in_list]).
    all: try in_list.
    all: try congruence.
  - intros member err. run_db; intros; simplify_eq/=; try done.
    all: repeat match goal with
      | H : negb ?a = false |- _ => apply negb_false_iff in H
      end; try congruence.
Qed.

(** X18: what [saveMember] returns.  It returns a member or an error, never
    both and never neither.  The member is the one it was given, not a row
    read back; and it is returned only after the insert into
    [board_members] ran without error. *)
Theorem saveMember_returns_its_argument (MysqlDBType : string) s db bm st member err st' :
  let save :=
    sqlstore.saveMember MysqlDBType (observed_store s) (observed_db db) (Some bm) in
  save st = (Ret (member, err), st') →
  (is_Some member ↔ err = None)
  ∧ (∀ m, member = Some m →
       m = bm
       ∧ ∃ result,
           DExec (sq.Insert (sqlstore.saveMember_query MysqlDBType s bm)) (Ret (result, None))
           ∈ added_calls save st).
Proof.
  destruct st as [w log]. cbv zeta. intros Hrun.
  unfold added_calls. rewrite Hrun. revert Hrun.
  run_db; intros; simplify_eq/=;
    rewrite ?drop_all, <- ?app_assoc, ?drop_app_length; simpl.
  all: split;
    [ (split; [by intros [? ?] | done]) || (split; [done | by eexists])
    | intros; simplify_eq/=; try (split; [done | eexists; in_list]) ].
Qed.

(** X19: what [deleteMember] writes.  It runs the delete, and, exactly when
    the delete returned no error and reports more than zero rows, the
    [deleted] row of the history.  Deleting a member that is not there
    (zero rows) is no error and leaves the history alone. *)
Theorem deleteMember_writes s db boardID userID st :
  let delete := sqlstore.deleteMember (observed_store s) (observed_db db) boardID userID in
  let history :=
    sq.Insert (sqlstore.addToMembersHistory s boardID userID "deleted") in
  let statement := sq.Delete (sqlstore.deleteMember_query s boardID userID) in
  execs_of (added_calls delete st) `prefix_of` [statement; history]
  ∧ head (execs_of (added_calls delete st)) = Some statement
  ∧ (history ∈ execs_of (added_calls delete st)
     ↔ ∃ rowsAffected,
         DExec statement (Ret (Some (sql.mkResult (rowsAffected, None)), None))
         ∈ added_calls delete st
         ∧ (0 < rowsAffected)%Z)
  ∧ (∀ rowsAffected,
       DExec statement (Ret (Some (sql.mkResult (rowsAffected, None)), None))
       ∈ added_calls delete st →
       (rowsAffected ≤ 0)%Z →
       (delete st).1 = Ret None ∧ execs_of (added_calls delete st) = [statement]).
Proof.
  destruct st as [w log]. cbv zeta.
  set (history := sq.Insert (sqlstore.addToMembersHistory s boardID userID "deleted")).
  set (statement := sq.Delete (sqlstore.deleteMember_query s boardID userID)).
  assert (history ≠ statement) as Hne by (intros [=]).
  split_and!.
  - run_db; fold statement history; first [by eexists [_; _] | by eexists [_] | by exists []].
  - run_db; done.
  - run_db; fold statement history.
    all: split;
      [ intros Hin;
        repeat (apply elem_of_cons in Hin as [Heq | Hin]; [by (done || destruct Hne) |]);
        try (by apply elem_of_nil in Hin)
      | intros (n & Hin & Hpos);
        repeat (apply elem_of_cons in Hin as [Heq | Hin]; [simplify_eq/= |]);
        try (by apply elem_of_nil in Hin) ].
    all: repeat match goal with
      | H : (0 <? _)%Z = true |- _ => apply Z.ltb_lt in H
      | H : (0 <? _)%Z = false |- _ => apply Z.ltb_ge in H
      | r : sql.Result |- _ => destruct r as [[? ?]]; simpl in *; simplify_eq/=
      end.
    all: try lia.
    all: try (eexists; split; [in_list | lia]).
    all: try in_list.
  - intros n. run_db; fold statement history; intros Hin Hle.
    all: repeat (apply elem_of_cons in Hin as [Heq | Hin]; [simplify_eq/= |]);
      try (by apply elem_of_nil in Hin).
    all: repeat match goal with
      | H : (0 <? _)%Z = true |- _ => apply Z.ltb_lt in H
      | H : (0 <? _)%Z = false |- _ => apply Z.ltb_ge in H
      end; try done; try lia.
Qed.

(** X20: a list of members is all the rows or none.  When [getMembersForUser]
    or [getMembersForBoard] returns no error, the members are the scans of
    every row of the cursor, in the cursor's order; when it returns an
    error, the list is empty, however many rows were scanned before. *)
Theorem member_lists_all_or_nothing s db boardID userID w :
  (∀ members err w',
     sqlstore.getMembersForUser s db userID w = (Ret (members, err), w') →
     match err with
     | Some _ => members = []
     | None =>
         ∃ rows w1,
           sqlstore.Query db (sqlstore.getMembersForUser_query s userID) w
           = (Ret (Some rows, None), w1)
           ∧ Forall2 (λ row member, sqlstore.Scan s row = inl member)
               (sql.pending rows) members
     end)
  ∧ (∀ members err w',
       sqlstore.getMembersForBoard s db boardID w = (Ret (members, err), w') →
       match err with
       | Some _ => members = []
       | None =>
           ∃ rows w1,
             sqlstore.Query db (sqlstore.getMembersForBoard_query s boardID) w
             = (Ret (Some rows, None), w1)
             ∧ Forall2 (λ row member, sqlstore.Scan s row = inl member)
                 (sql.pending rows) members
       end).
Proof.
  split; intros members err w' Hrun; revert Hrun; run_db; intros; simplify_eq/=.
  all: repeat match goal with
    | H : sqlstore.scan_rows _ (sql.pending _) [] = (_, None) |- _ =>
        apply scan_rows_ok in H as (? & ? & ?); simplify_eq/=
    | H : sqlstore.scan_rows _ (sql.pending _) [] = (_, Some _) |- _ =>
        apply scan_rows_err in H as (? & ? & ? & ?); simplify_eq/=
    end; try done.
  all: by eexists _, _.
Qed.

End BoardMembers.

(** ** The columns of a board *)

(** X21: the prefix lands on the column name.  For every prefix,
    [boardFields] gives as many fields as without one, and each field is
    the unprefixed one with the prefix put right before the column name:
    in front, or, for a column wrapped in [COALESCE], directly after the
    opening parenthesis.  The shortcut for the empty prefix agrees. *)
Theorem boardFields_prefix_placement (prefix : string) :
  length (sqlstore.boardFields prefix) = length (sqlstore.boardFields "")
  ∧ ∀ i field,
      sqlstore.boardFields "" !! i = Some field →
      (strings_HasPrefix field "COALESCE(" = false
       ∧ sqlstore.boardFields prefix !! i = Some (prefix +:+ field))
      ∨ ∃ column,
          field = "COALESCE(" +:+ column
          ∧ sqlstore.boardFields prefix !! i = Some ("COALESCE(" +:+ prefix +:+ column).
Proof.
  destruct (decide (prefix = "")) as [-> | Hne].
  - split; [done |]. intros i field Hi.
    do 17 (destruct i as [| i];
           [simpl in Hi; simplify_eq; first [by left | right; by eexists] |]).
    done.
  - unfold sqlstore.boardFields. rewrite (bool_decide_eq_false_2 _ Hne).
    split; [done |]. intros i field Hi.
    do 17 (destruct i as [| i];
           [simpl in Hi; simplify_eq; first [by left | right; by eexists] |]).
    done.
Qed.

(** * The further properties on concrete inputs *)

(** Removing a listener that was added twice, with another in between. *)
Lemma RemoveListener_removes_every_registration_witness :
  ∃ b' s',
    RemoveListener (Sample.backend [Sample.recorder 1; Sample.recorder 2; Sample.recorder 1])
      (Sample.recorder 1) (Sample.start Sample.world0)
    = (Ret b', s')
    ∧ listeners b' = [Sample.recorder 2]
    ∧ unregistered (Sample.recorder 1) (listeners b').
Proof.
  eexists _, _. split; [reflexivity |]. split; [reflexivity |].
  apply (proj1 (RemoveListener_removes_every_registration
                  (Sample.backend [Sample.recorder 1; Sample.recorder 2; Sample.recorder 1])
                  (Sample.recorder 1) (Sample.start Sample.world0) _ _ eq_refl)).
Defined.

(** Adding a listener to a registry that does not hold it and removing it
    again. *)
Lemma AddListener_RemoveListener_round_trip_witness :
  ∃ b1 s1 b2 s2,
    AddListener (Sample.backend [Sample.recorder 2]) (Sample.recorder 1)
      (Sample.start Sample.world0) = (Ret b1, s1)
    ∧ RemoveListener b1 (Sample.recorder 1) s1 = (Ret b2, s2)
    ∧ listeners b2 = [Sample.recorder 2]
    ∧ world s2 = Sample.world0.
Proof.
  eexists _, _, _, _. split; [reflexivity |]. split; [reflexivity |].
  assert (unregistered (Sample.recorder 1) (listeners (Sample.backend [Sample.recorder 2])))
    as Hfresh.
  { repeat constructor. simpl. lia. }
  destruct (AddListener_RemoveListener_round_trip
              (Sample.backend [Sample.recorder 2]) (Sample.recorder 1)
              (Sample.start Sample.world0) _ _ _ _ Hfresh eq_refl eq_refl)
    as (Hls & Hworld & _).
  split; [exact Hls | exact Hworld].
Defined.

(** After its removal, listener 1 hears nothing of a delivered mention. *)
Lemma removed_listener_not_called_witness :
  ∃ b' s',
    RemoveListener (Sample.backend [Sample.recorder 1; Sample.recorder 2])
      (Sample.recorder 1) (Sample.start Sample.world0)
    = (Ret b', s')
    ∧ ∀ userID e,
        (1, userID, e)
        ∉ on_mentions
            (trace_of (Sample.BlockChanged b'
                         (Sample.event Sample.board1 (Some Sample.bob_editor) None
                            "@alice hi"))
               (Sample.start Sample.world0)).
Proof.
  eexists _, _. split; [reflexivity |]. intros userID e.
  apply (removed_listener_not_called (hp := Sample.helpers)
           (Sample.backend [Sample.recorder 1; Sample.recorder 2]) (Sample.recorder 1)
           (Sample.start Sample.world0) _ _
           (Sample.event Sample.board1 (Some Sample.bob_editor) None "@alice hi")
           (Sample.start Sample.world0) userID e eq_refl).
Defined.

(** An edit that keeps the one mention and changes the rest of the text. *)
Lemma no_new_mention_noop_witness :
  Sample.BlockChanged (Sample.backend [Sample.recorder 1])
    (Sample.event Sample.board1 (Some Sample.bob_editor) (Some "@alice hi") "@alice hello")
    (Sample.start Sample.world0)
  = (Ret None, Sample.start Sample.world0).
Proof.
  apply (no_new_mention_noop (hp := Sample.helpers) (Sample.backend [Sample.recorder 1])
           (Sample.event Sample.board1 (Some Sample.bob_editor) (Some "@alice hi")
              "@alice hello")
           (Sample.text_block "block1" "@alice hello")).
  - intros s. reflexivity.
  - reflexivity.
  - apply (bool_decide_unpack _). vm_compute. exact I.
Defined.

(** An update event that carries no changed block. *)
Lemma nil_changed_block_panics_witness :
  Sample.BlockChanged (Sample.backend [Sample.recorder 1])
    {| notify.Action_ := notify.Update; notify.TeamID := "team1";
       notify.Board := Some Sample.board1; notify.Card := Some Sample.card1;
       notify.BlockChanged := None; notify.BlockOld := None;
       notify.ModifiedBy := Some Sample.bob_editor |}
    (Sample.start Sample.world0)
  = (Panic NilDereference, Sample.start Sample.world0).
Proof.
  apply (nil_changed_block_panics (hp := Sample.helpers)); simpl;
    first [discriminate | reflexivity].
Defined.

(** A viewer mentions alice on a private board: no membership is read,
    written or announced. *)
Lemma guests_and_private_boards_never_enrol_witness :
  Forall (λ c, is_membership_call c = false)
    (trace_of (Sample.BlockChanged (Sample.backend [Sample.recorder 1])
                 (Sample.event Sample.board2 (Some Sample.bob_viewer) None "@alice hi"))
       (Sample.start Sample.world0)).
Proof.
  apply (guests_and_private_boards_never_enrol (hp := Sample.helpers)).
  intros board modifiedBy Hboard Hactor. simpl in Hboard, Hactor.
  injection Hboard as <-. left. discriminate.
Defined.

(** A viewer on a private board: only the user lookup is made. *)
Lemma viewer_bit_precedence_witness :
  Forall is_user_lookup
    (trace_of (Sample.BlockChanged (Sample.backend [Sample.recorder 1])
                 (Sample.event Sample.board2 (Some Sample.bob_viewer) None "@alice hi"))
       (Sample.start Sample.world0)).
Proof.
  apply (proj1 (viewer_bit_precedence (hp := Sample.helpers)
                  (Sample.backend [Sample.recorder 1])
                  (Sample.event Sample.board2 (Some Sample.bob_viewer) None "@alice hi")
                  Sample.board2 Sample.bob_viewer eq_refl eq_refl eq_refl)).
  left. discriminate.
Defined.

(** An editor mentions alice on an open board: the delivery is the seventh
    and last call of the attempt, after the team check passed. *)
Lemma delivery_only_after_passed_check_witness :
  ∃ mu x e res,
    trace_of (deliverMentionNotification (Sample.backend []) "alice" "@alice hi"
                (Sample.event Sample.board1 (Some Sample.bob_editor) None "@alice hi"))
      (Sample.start Sample.world0) !! 6
    = Some (CMentionDeliver mu x e res)
    ∧ x = "@alice hi"
    ∧ length (trace_of (deliverMentionNotification (Sample.backend []) "alice" "@alice hi"
                          (Sample.event Sample.board1 (Some Sample.bob_editor) None
                             "@alice hi"))
                (Sample.start Sample.world0)) = 7.
Proof.
  eexists _, _, _, _. split; [reflexivity |].
  destruct (delivery_only_after_passed_check (Sample.backend []) "alice" "@alice hi"
              (Sample.event Sample.board1 (Some Sample.bob_editor) None "@alice hi")
              (Sample.start Sample.world0) 6 _ _ _ _ eq_refl)
    as (Hx & _ & _ & Hlen & _).
  split; [exact Hx | exact Hlen].
Defined.


(** Two new mentions: both usernames are looked up. *)
Lemma lookups_follow_new_only_witness :
  lookups_of (trace_of (Sample.BlockChanged (Sample.backend [Sample.recorder 1])
                          (Sample.event Sample.board1 (Some Sample.bob_editor) None
                             "@alice @carol"))
                (Sample.start Sample.world0))
  `prefix_of` new_only (hp := Sample.helpers)
                (Sample.event Sample.board1 (Some Sample.bob_editor) None "@alice @carol")
  ∧ new_only (hp := Sample.helpers)
      (Sample.event Sample.board1 (Some Sample.bob_editor) None "@alice @carol")
    = ["carol"; "alice"].
Proof.
  split; [| vm_compute; reflexivity].
  destruct (lookups_follow_new_only (hp := Sample.helpers)
              (Sample.backend [Sample.recorder 1])
              (Sample.event Sample.board1 (Some Sample.bob_editor) None "@alice @carol")
              (Sample.text_block "block1" "@alice @carol")
              (Sample.start Sample.world0)) as [Hprefix _].
  - intros s. reflexivity.
  - repeat split; first [discriminate | reflexivity].
  - exact Hprefix.
Defined.

(** Two names that are no users: no error, two lookups, nothing else. *)
Lemma unknown_names_are_skipped_witness :
  (Sample.BlockChanged (Sample.backend [Sample.recorder 1])
     (Sample.event Sample.board1 (Some Sample.bob_editor) None "@zed @yan hello")
     (Sample.start Sample.world0)).1 = Ret None
  ∧ lookups_of (trace_of (Sample.BlockChanged (Sample.backend [Sample.recorder 1])
                            (Sample.event Sample.board1 (Some Sample.bob_editor) None
                               "@zed @yan hello"))
                  (Sample.start Sample.world0))
    = ["yan"; "zed"].
Proof.
  destruct (unknown_names_are_skipped (hp := Sample.helpers)
              (Sample.backend [Sample.recorder 1])
              (Sample.event Sample.board1 (Some Sample.bob_editor) None "@zed @yan hello")
              (Sample.text_block "block1" "@zed @yan hello")
              (Sample.start Sample.world0)) as (Hret & _ & Hlookups).
  - intros s. reflexivity.
  - repeat split; discriminate.
  - intros username w Hin.
    change (username ∈ ["yan"; "zed"]) in Hin.
    apply elem_of_cons in Hin as [-> | Hin].
    { eexists _, _, _. split; reflexivity. }
    apply list_elem_of_singleton in Hin as ->.
    eexists _, _, _. split; reflexivity.
  - split; [exact Hret | exact Hlookups].
Defined.

(** The plugin delivers a mention of alice by bob: the post is the third
    call, by the bot, into the direct channel with alice. *)
Lemma post_created_only_after_lookups_witness :
  ∃ c,
    c ∈ added_calls
          (plugindelivery.MentionDeliver Sample.MakeCardLink Sample.formatMessage
             (observed_pd Sample.sample_pd) (Some Sample.alice) "@alice hi"
             (Sample.event Sample.board1 (Some Sample.bob_editor) None "@alice hi"))
          (Sample.world0, [])
    ∧ is_create_post c
    ∧ ∃ post r,
        c = ACreatePost post r
        ∧ mm_model.UserId post = "bot"
        ∧ mm_model.ChannelId post = "dm-u-alice".
Proof.
  pose (c := ACreatePost
               {| mm_model.UserId := "bot";
                  mm_model.ChannelId := "dm-u-alice";
                  mm_model.Message :=
                    Sample.formatMessage "bob" "@alice hi" "Release plan"
                      (Sample.MakeCardLink "https://boards" "team1" "board1" "card1")
                      (Some (Sample.text_block "block1" "@alice hi")) |}
               (Ret None)).
  assert (c ∈ added_calls
                (plugindelivery.MentionDeliver Sample.MakeCardLink Sample.formatMessage
                   (observed_pd Sample.sample_pd) (Some Sample.alice) "@alice hi"
                   (Sample.event Sample.board1 (Some Sample.bob_editor) None "@alice hi"))
                (Sample.world0, [])) as Hin.
  { apply (list_elem_of_lookup_2 _ 2). reflexivity. }
  exists c. split; [exact Hin |]. split; [exact I |].
  destruct (post_created_only_after_lookups Sample.MakeCardLink Sample.formatMessage
              Sample.sample_pd (Some Sample.alice) "@alice hi"
              (Sample.event Sample.board1 (Some Sample.bob_editor) None "@alice hi")
              (Sample.world0, []) c Hin I)
    as (modifiedBy & mentioned & author & channel & board & card & post & r
        & _ & _ & _ & _ & Hc & _ & _ & _ & _).
  exists post, r. split; [exact Hc |].
  injection Hc as <- _. split; reflexivity.
Defined.

(** The transport is down: the plugin returns alice's id beside the error
    of [CreatePost]. *)
Lemma MentionDeliver_result_witness :
  ∃ userID err st',
    plugindelivery.MentionDeliver Sample.MakeCardLink Sample.formatMessage
      (observed_pd Sample.sample_pd) (Some Sample.alice) "@alice hi"
      (Sample.event Sample.board1 (Some Sample.bob_editor) None "@alice hi")
      (Sample.world_down, [])
    = (Ret (userID, err), st')
    ∧ userID = "u-alice"
    ∧ err = Some (ErrExternal "cannot create post")
    ∧ ∃ mentioned post,
        Some Sample.alice = Some mentioned ∧ userID = mm_model.User_Id mentioned
        ∧ last (added_calls
                  (plugindelivery.MentionDeliver Sample.MakeCardLink Sample.formatMessage
                     (observed_pd Sample.sample_pd) (Some Sample.alice) "@alice hi"
                     (Sample.event Sample.board1 (Some Sample.bob_editor) None "@alice hi"))
                  (Sample.world_down, []))
          = Some (ACreatePost post (Ret err)).
Proof.
  eexists _, _, _. split; [vm_compute; reflexivity |].
  split; [reflexivity |]. split; [reflexivity |].
  edestruct (MentionDeliver_result Sample.MakeCardLink Sample.formatMessage
               Sample.sample_pd (Some Sample.alice) "@alice hi"
               (Sample.event Sample.board1 (Some Sample.bob_editor) None "@alice hi")
               (Sample.world_down, [])) as [(Hid & _) | Hpost].
  - vm_compute. reflexivity.
  - discriminate Hid.
  - exact Hpost.
Defined.

(** A lookup of bob among two members of the board. *)
Lemma getMemberForBoard_member_or_error_witness :
  ∃ member err w',
    sqlstore.getMemberForBoard SampleDB.store SampleDB.runner "board1" "u-bob"
      (SampleDB.with_members [Sample.carol_editor; Sample.bob_editor])
    = (Ret (member, err), w')
    ∧ member = Some Sample.bob_editor
    ∧ (is_Some member ↔ err = None).
Proof.
  eexists _, _, _. split; [reflexivity |]. split; [reflexivity |].
  apply (proj1 (getMemberForBoard_member_or_error SampleDB.store SampleDB.runner
                  "board1" "u-bob"
                  (SampleDB.with_members [Sample.carol_editor; Sample.bob_editor])
                  _ _ _ eq_refl)).
Defined.

(** Saving bob into an empty table: the insert, then the history row. *)
Lemma saveMember_writes_witness :
  sq.Insert (sqlstore.addToMembersHistory SampleDB.store "board1" "u-bob" "created")
  ∈ execs_of
      (added_calls
         (sqlstore.saveMember SampleDB.MysqlDBType (observed_store SampleDB.store)
            (observed_db SampleDB.runner) (Some Sample.bob_editor))
         (SampleDB.empty, [])).
Proof.
  apply (proj2 (proj1 (proj2 (saveMember_writes SampleDB.MysqlDBType SampleDB.store
                                SampleDB.runner Sample.bob_editor (SampleDB.empty, []))))).
  split.
  - eexists. split; reflexivity.
  - eexists. apply (list_elem_of_lookup_2 _ 2). reflexivity.
Defined.

(** Saving bob into an empty table returns bob. *)
Lemma saveMember_returns_its_argument_witness :
  ∃ member err st',
    sqlstore.saveMember SampleDB.MysqlDBType (observed_store SampleDB.store)
      (observed_db SampleDB.runner) (Some Sample.bob_editor) (SampleDB.empty, [])
    = (Ret (member, err), st')
    ∧ (is_Some member ↔ err = None)
    ∧ member = Some Sample.bob_editor.
Proof.
  eexists _, _, _. split; [reflexivity |].
  destruct (saveMember_returns_its_argument SampleDB.MysqlDBType SampleDB.store
              SampleDB.runner Sample.bob_editor (SampleDB.empty, []) _ _ _ eq_refl)
    as (Hxor & _).
  split; [exact Hxor | reflexivity].
Defined.

(** Deleting a member that is not there: no error and no history. *)
Lemma deleteMember_writes_witness :
  (sqlstore.deleteMember (observed_store SampleDB.store) (observed_db SampleDB.runner)
     "board1" "u-bob" (SampleDB.with_members [Sample.carol_editor], [])).1 = Ret None
  ∧ execs_of
      (added_calls
         (sqlstore.deleteMember (observed_store SampleDB.store) (observed_db SampleDB.runner)
            "board1" "u-bob")
         (SampleDB.with_members [Sample.carol_editor], []))
    = [sq.Delete (sqlstore.deleteMember_query SampleDB.store "board1" "u-bob")].
Proof.
  apply (proj2 (proj2 (proj2 (deleteMember_writes SampleDB.store SampleDB.runner
                                "board1" "u-bob"
                                (SampleDB.with_members [Sample.carol_editor], []))))
           0%Z).
  - apply (list_elem_of_lookup_2 _ 0). reflexivity.
  - lia.
Defined.

(** * Collecting failures *)

Section Failures.
Context {W : Type} {hp : Helpers}.
Implicit Types (b : @Backend W) (evt : notify.BlockChangeEvent) (s : BState W).








End Failures.

(** * Auto-enrolment *)

Section Enrolment.
Context {W : Type} {hp : Helpers}.
Variable inv : W → Prop.
Variable rows : string → string → W → nat.
Implicit Types (b : @Backend W) (s : BState W).

Lemma count_calls_app p (l k : list Call) :
  count_calls p (l ++ k) = count_calls p l + count_calls p k.
Proof. unfold count_calls. by rewrite List.filter_app, length_app. Qed.

#[local] Instance enrolment_preorder boardID userID :
  PreOrder (enrolment inv rows boardID userID).
Proof.
  split.
  - intros s0 Hinv. split; [done |]. exists []. rewrite app_nil_r. cbv [count_calls]. simpl.
    repeat split; lia.
  - intros s0 s1 s2 H1 H2 Hinv.
    destruct (H1 Hinv) as (Hinv1 & d1 & Hc1 & Hb1 & Hr1 & Hd1).
    destruct (H2 Hinv1) as (Hinv2 & d2 & Hc2 & Hb2 & Hr2 & Hd2).
    split; [done |].
    exists (d1 ++ d2). rewrite !count_calls_app, Hc2, Hc1, app_assoc.
    repeat split; lia.
Qed.














End Enrolment.

(** ** The board store on a database that answers is a truthful store *)

Section BoardStore.



















End BoardStore.


(** * C3 and C4 on concrete events *)



